(** * AuraSense dashboard: the live-subscription view-model of [src/App.js]

    The React component [App] keeps seven [useState] cells and two effects:
    the initialization effect (Firebase start-up and the auth listener) and
    the data effect (the Firestore [onSnapshot] subscription).  The component
    is embedded as explicit state passing: every [setX] call is a function on
    the record of the seven cells, every callback is the composition of its
    setter calls in source order, and the React runtime is a small machine
    that re-runs the data effect when its dependency array [[db, userId]]
    has changed. *)

From Stdlib Require Import Floats.
From stdpp Require Import gmap strings list pretty.

Local Open Scope string_scope.
Local Open Scope list_scope.

(** ** JavaScript values *)

(** A Firestore [Timestamp]; a JS [Date] as milliseconds since the epoch. *)
Record Timestamp := { seconds : Z; nanoseconds : Z }.
Record Date := { getTime : Z }.

(** The values a document field or a parsed JSON text can hold.  A JS number
    is an IEEE-754 double.  [undefined] is the absence of a property and is
    modelled by [None] at the lookup. *)
#[warnings="-register-all"]
Inductive jsval :=
| JNull
| JBool (b : bool)
| JNum (x : float)
| JStr (s : string)
| JTimestamp (t : Timestamp)
| JDate (d : Date)
| JArray (items : list jsval)
| JObject (fields : gmap string jsval).

(** A plain JS object: property name to value. *)
Abbreviation jsobject := (gmap string jsval).

(** Truthiness of a string: only the empty string is falsy. *)
Definition truthy_string (s : string) : bool :=
  if decide (s = EmptyString) then false else true.

(** [ToBoolean]: null, false, 0, -0, NaN and the empty string are falsy; every
    object is truthy. *)
Definition truthy (v : jsval) : bool :=
  match v with
  | JNull => false
  | JBool b => b
  | JNum x => negb (PrimFloat.is_nan x || PrimFloat.is_zero x)
  | JStr s => truthy_string s
  | JTimestamp _ | JDate _ | JArray _ | JObject _ => true
  end.

(** Truthiness of a property read or of a nullable state cell: [undefined]
    and [null] are falsy. *)
Definition truthy_opt (o : option jsval) : bool :=
  match o with
  | Some v => truthy v
  | None => false
  end.

Definition truthy_nullable_string (o : option string) : bool :=
  match o with
  | Some s => truthy_string s
  | None => false
  end.

(** [Object.keys(v).length] for a non-nullish [v]: the number of own
    enumerable string keys.  Primitives other than strings and [Date]
    objects have none, a string has one per character, a [Timestamp] has
    its two fields. *)
Definition Object_keys_length (v : jsval) : nat :=
  match v with
  | JNull | JBool _ | JNum _ | JDate _ => 0
  | JStr s => String.length s
  | JTimestamp _ => 2
  | JArray items => length items
  | JObject fields => size fields
  end.

(** ** Exceptions *)

(** The result of running code that may throw; [Thrown] carries the
    [message] of the error object. *)
Inductive outcome (A : Type) :=
| Returned (a : A)
| Thrown (message : string).
Arguments Returned {A} a.
Arguments Thrown {A} message.

(** Sequencing: a throw skips the rest of the block. *)
#[global] Instance outcome_bind : MBind outcome := λ A B k m,
  match m with
  | Returned a => k a
  | Thrown msg => Thrown msg
  end.

(** ** External collaborators

    The Firebase SDK and [JSON.parse] are not part of the repository; the
    component is parameterised by them. *)
Class Collaborators := {
  FirebaseApp : Type;
  Firestore : Type;
  Auth : Type;
  (** [Object.is] on Firestore handles, used by the dependency array. *)
  Firestore_eq_dec :: EqDecision Firestore;
  JSON_parse : string → outcome jsval;
  initializeApp : jsval → outcome FirebaseApp;
  getFirestore : FirebaseApp → outcome Firestore;
  getAuth : FirebaseApp → outcome Auth;
  (** [Timestamp.prototype.toDate]. *)
  toDate : Timestamp → Date;
}.

(** The globals injected by the hosting environment; [None] is
    [typeof x === 'undefined']. *)
Record Globals := {
  __app_id : option string;
  __firebase_config : option string;
  __initial_auth_token : option string;
}.

(** The [user] argument of the auth callback, when not null. *)
Record User := { uid : string }.

(** One entry of a query snapshot: [doc.id] and [doc.data()]. *)
Record QueryDocumentSnapshot := {
  doc_id : string;
  doc_data : jsobject;
}.

(** A snapshot, in the order [snapshot.forEach] visits it. *)
Abbreviation QuerySnapshot := (list QueryDocumentSnapshot).

Inductive Direction := asc | desc.

Inductive QueryConstraint :=
| orderBy (field : string) (dir : Direction)
| limit (n : nat).

(** ** A sample environment

    A stand-in for the SDK on which the component can be run: its
    [JSON.parse] knows the empty object and one configuration text, start-up
    always succeeds, and [toDate] truncates to milliseconds. *)
Definition doubleQuote : string := String (Ascii.ascii_of_nat 34) EmptyString.

Definition demoConfigText : string :=
  "{" +:+ doubleQuote +:+ "projectId" +:+ doubleQuote +:+ ":"
  +:+ doubleQuote +:+ "aura-sense" +:+ doubleQuote +:+ "}".

Definition demo : Collaborators :=
  {| FirebaseApp := jsval;
     Firestore := string;
     Auth := string;
     Firestore_eq_dec := _;
     JSON_parse text :=
       if decide (text = "{}") then Returned (JObject ∅)
       else if decide (text = demoConfigText)
            then Returned (JObject {["projectId" := JStr "aura-sense"]})
            else Thrown "Unexpected token in JSON";
     initializeApp options := Returned options;
     getFirestore app := Returned "firestore";
     getAuth app := Returned "auth";
     toDate t :=
       {| getTime := (seconds t * 1000 + nanoseconds t `div` 1000000)%Z |} |}.

Definition demoGlobals : Globals :=
  {| __app_id := Some "aura";
     __firebase_config := Some demoConfigText;
     __initial_auth_token := None |}.

Definition missingGlobals : Globals :=
  {| __app_id := None; __firebase_config := None;
     __initial_auth_token := None |}.

Definition demoUser : User := {| uid := "user-1" |}.

(** The record stamped [n] seconds after a fixed instant. *)
Definition demoDoc (n : Z) : QueryDocumentSnapshot :=
  {| doc_id := "r" +:+ pretty n;
     doc_data :=
       {[ "temperature" := JNum 22.5%float;
          "humidity" := JNum 40%float;
          "timestamp" :=
            JTimestamp {| seconds := 1700000000 + n; nanoseconds := 0 |} ]} |}.

(** Eleven records, newest first. *)
Definition demoSnapshot11 : QuerySnapshot :=
  demoDoc <$> [10; 9; 8; 7; 6; 5; 4; 3; 2; 1; 0]%Z.

Section App.
Context `{Collaborators}.

(** [collection(db, path)] and [query(ref, ...constraints)]. *)
Record CollectionReference := collection {
  coll_db : Firestore;
  coll_path : string;
}.

Record Query := query {
  q_ref : CollectionReference;
  q_constraints : list QueryConstraint;
}.

(** ** Component state: the seven [useState] cells, with their initial
    values. *)
Record AppState := {
  db : option Firestore;
  auth : option Auth;
  userId : option string;
  latestReading : option jsobject;
  sensorReadings : list jsobject;
  error : option string;
  isLoading : bool;
}.

Definition initialState : AppState :=
  {| db := None; auth := None; userId := None; latestReading := None;
     sensorReadings := []; error := None; isLoading := true |}.

Definition setDb (v : option Firestore) (st : AppState) : AppState :=
  {| db := v; auth := auth st; userId := userId st;
     latestReading := latestReading st; sensorReadings := sensorReadings st;
     error := error st; isLoading := isLoading st |}.

Definition setAuth (v : option Auth) (st : AppState) : AppState :=
  {| db := db st; auth := v; userId := userId st;
     latestReading := latestReading st; sensorReadings := sensorReadings st;
     error := error st; isLoading := isLoading st |}.

Definition setUserId (v : option string) (st : AppState) : AppState :=
  {| db := db st; auth := auth st; userId := v;
     latestReading := latestReading st; sensorReadings := sensorReadings st;
     error := error st; isLoading := isLoading st |}.

Definition setLatestReading (v : option jsobject) (st : AppState) : AppState :=
  {| db := db st; auth := auth st; userId := userId st;
     latestReading := v; sensorReadings := sensorReadings st;
     error := error st; isLoading := isLoading st |}.

Definition setSensorReadings (v : list jsobject) (st : AppState) : AppState :=
  {| db := db st; auth := auth st; userId := userId st;
     latestReading := latestReading st; sensorReadings := v;
     error := error st; isLoading := isLoading st |}.

Definition setError (v : option string) (st : AppState) : AppState :=
  {| db := db st; auth := auth st; userId := userId st;
     latestReading := latestReading st; sensorReadings := sensorReadings st;
     error := v; isLoading := isLoading st |}.

Definition setIsLoading (v : bool) (st : AppState) : AppState :=
  {| db := db st; auth := auth st; userId := userId st;
     latestReading := latestReading st; sensorReadings := sensorReadings st;
     error := error st; isLoading := v |}.

(** ** The snapshot callback (App.js lines 101-117) *)

(** [data.timestamp ? data.timestamp.toDate() : null].  Only a [Timestamp]
    has a [toDate] method; on any other truthy value the call is a
    [TypeError]. *)
Definition convertTimestamp (field : option jsval) : outcome jsval :=
  match field with
  | Some v =>
      if truthy v then
        match v with
        | JTimestamp t => Returned (JDate (toDate t))
        | _ => Thrown "data.timestamp.toDate is not a function"
        end
      else Returned JNull
  | None => Returned JNull
  end.

(** The object literal [{ id: doc.id, ...data, timestamp: ... }]: the spread
    overwrites [id] when the data has such a field, and [timestamp] is
    written last. *)
Definition materialize (doc : QueryDocumentSnapshot) : outcome jsobject :=
  let data := doc_data doc in
  ts ← convertTimestamp (data !! "timestamp") ;
  Returned (<["timestamp" := ts]> (data ∪ {["id" := JStr (doc_id doc)]})).

(** [snapshot.forEach(doc => readings.push(...))] on the array built so
    far. *)
Fixpoint forEach_push (docs : QuerySnapshot) (readings : list jsobject)
  : outcome (list jsobject) :=
  match docs with
  | [] => Returned readings
  | doc :: rest =>
      r ← materialize doc ;
      forEach_push rest (readings ++ [r])
  end.

Definition onSnapshotNext (snapshot : QuerySnapshot) (st : AppState)
  : outcome AppState :=
  readings ← forEach_push snapshot [] ;
  let st1 := setSensorReadings readings st in
  let st2 :=
    if bool_decide (0 < length readings)
    then setLatestReading (readings !! 0%nat) st1
    else st1 in
  Returned (setIsLoading false st2).

(** ** The subscription error callback (App.js lines 118-122) *)
Definition onSnapshotError (message : string) (st : AppState) : AppState :=
  setIsLoading false
    (setError (Some ("Failed to fetch sensor data: " +:+ message)) st).

(** ** Calls made on the external collaborators *)
Inductive Call :=
| call_onAuthStateChanged (a : Auth)
| call_signInWithCustomToken (a : Auth) (token : string)
| call_signInAnonymously (a : Auth)
| call_unsubscribeAuth
| call_onSnapshot (q : Query)
| call_unsubscribe (q : Query).

(** ** The initialization effect (App.js lines 23-79) *)

(** What the auth callback closes over. *)
Record AuthListener := {
  firebaseAuth : Auth;
  initialAuthToken : option string;
}.

(** The body of the outer [try]: [None] is the early [return] of the
    missing-configuration branch, [Thrown] is handled by the [catch]. *)
Definition initAttempt (g : Globals) : outcome (option (Firestore * Auth)) :=
  firebaseConfig ←
    match __firebase_config g with
    | Some text => JSON_parse text
    | None => Returned (JObject ∅)
    end;
  if negb (truthy firebaseConfig)
     || bool_decide (Object_keys_length firebaseConfig = 0%nat)
  then Returned None
  else
    app ← initializeApp firebaseConfig;
    firestoreDb ← getFirestore app;
    firebaseAuth ← getAuth app;
    Returned (Some (firestoreDb, firebaseAuth)).

(** The effect returns the new state and, when it got that far, the
    listener it registered with [onAuthStateChanged]. *)
Definition initEffect (g : Globals) (st : AppState)
  : AppState * option AuthListener :=
  match initAttempt g with
  | Returned None =>
      (setIsLoading false
         (setError
            (Some "Firebase configuration not found. Please ensure __firebase_config is set.")
            st),
       None)
  | Returned (Some (firestoreDb, fbAuth)) =>
      (setAuth (Some fbAuth) (setDb (Some firestoreDb) st),
       Some {| firebaseAuth := fbAuth;
               initialAuthToken := __initial_auth_token g |})
  | Thrown message =>
      (setIsLoading false
         (setError (Some ("Failed to initialize Firebase: " +:+ message)) st),
       None)
  end.

(** The auth callback: with a user it records the identity; without one it
    starts a sign-in, with the token when [initialAuthToken] is truthy. *)
Definition onAuthStateChangedNext (cl : AuthListener) (user : option User)
    (st : AppState) : AppState * list Call :=
  match user with
  | Some u => (setIsLoading false (setUserId (Some (uid u)) st), [])
  | None =>
      (st,
       [match initialAuthToken cl with
        | Some token =>
            if truthy_string token
            then call_signInWithCustomToken (firebaseAuth cl) token
            else call_signInAnonymously (firebaseAuth cl)
        | None => call_signInAnonymously (firebaseAuth cl)
        end])
  end.

(** The [catch] around the awaited sign-in. *)
Definition onSignInRejected (message : string) (st : AppState) : AppState :=
  setIsLoading false
    (setError (Some ("Authentication failed: " +:+ message)) st).

(** ** The data effect (App.js lines 82-127) *)
Definition sensorQuery (firestoreDb : Firestore) : Query :=
  query (collection firestoreDb "sensorReadings")
        [orderBy "timestamp" desc; limit 10].

(** Under the guard [db && userId] the effect clears the error and opens
    the listener; the returned query stands for the cleanup closure
    [() => unsubscribe()]. *)
Definition dataEffect (st : AppState) : AppState * option Query :=
  match db st with
  | Some firestoreDb =>
      if truthy_nullable_string (userId st)
      then (setError None st, Some (sensorQuery firestoreDb))
      else (st, None)
  | None => (st, None)
  end.

(** ** Rendering (App.js lines 130-219) *)

(** The three cells of a reading that the dashboard prints; a falsy
    timestamp prints as N/A ([None]). *)
Record ReadingView := {
  shown_temperature : option jsval;
  shown_humidity : option jsval;
  shown_timestamp : option jsval;
}.

Definition viewReading (reading : jsobject) : ReadingView :=
  {| shown_temperature := reading !! "temperature";
     shown_humidity := reading !! "humidity";
     shown_timestamp :=
       if truthy_opt (reading !! "timestamp") then reading !! "timestamp"
       else None |}.

(** The three screens.  [user] is the identity line, present when [userId]
    is truthy; [latest] is [None] for the no-data placeholder and an empty
    [rows] is the no-recent-readings placeholder. *)
Inductive Screen :=
| LoadingScreen
| ErrorScreen (message : string) (user : option string)
| DashboardScreen (user : option string) (latest : option ReadingView)
    (rows : list ReadingView).

Definition shownUser (st : AppState) : option string :=
  if truthy_nullable_string (userId st) then userId st else None.

Definition dashboard (st : AppState) : Screen :=
  DashboardScreen (shownUser st) (viewReading <$> latestReading st)
    (viewReading <$> sensorReadings st).

Definition render (st : AppState) : Screen :=
  if isLoading st then LoadingScreen
  else
    match error st with
    | Some message =>
        if truthy_string message then ErrorScreen message (shownUser st)
        else dashboard st
    | None => dashboard st
    end.

(** ** The mounted component

    Besides the state cells the runtime keeps, for the data effect, the
    dependency values of its last run and the cleanup it returned, and the
    host keeps the registered auth callback.  [calls] is the log of calls on
    the collaborators, oldest first. *)
Record Component := {
  view : AppState;
  authListener : option AuthListener;
  dataDeps : option Firestore * option string;
  subscription : option Query;
  calls : list Call;
}.

Definition cleanupCalls (sub : option Query) : list Call :=
  match sub with
  | Some q => [call_unsubscribe q]
  | None => []
  end.

Definition openCalls (sub : option Query) : list Call :=
  match sub with
  | Some q => [call_onSnapshot q]
  | None => []
  end.

(** Re-render after state updates: when [[db, userId]] differs from the
    values of the last run, the previous cleanup runs and then the effect
    body.  The [setError(null)] of the body changes no dependency, so one
    pass suffices. *)
Definition commit (c : Component) : Component :=
  let deps := (db (view c), userId (view c)) in
  if decide (dataDeps c = deps) then c
  else
    let '(st, sub) := dataEffect (view c) in
    {| view := st;
       authListener := authListener c;
       dataDeps := deps;
       subscription := sub;
       calls := calls c ++ cleanupCalls (subscription c) ++ openCalls sub |}.

Definition withView (st : AppState) (new_calls : list Call) (c : Component)
  : Component :=
  {| view := st;
     authListener := authListener c;
     dataDeps := dataDeps c;
     subscription := subscription c;
     calls := calls c ++ new_calls |}.

(** Mounting: the first render sees [initialState], so the first run of the
    data effect has [db = null] and does nothing; the updates queued by the
    initialization effect are then committed. *)
Definition mount (g : Globals) : Component :=
  let '(st, listener) := initEffect g initialState in
  commit
    {| view := st;
       authListener := listener;
       dataDeps := (db initialState, userId initialState);
       subscription := snd (dataEffect initialState);
       calls :=
         match listener with
         | Some cl => [call_onAuthStateChanged (firebaseAuth cl)]
         | None => []
         end |}.

(** What the host can deliver to the component. *)
Inductive Event :=
| EvAuthState (user : option User)
| EvSignInRejected (message : string)
| EvSnapshot (snapshot : QuerySnapshot)
| EvSnapshotError (message : string)
| EvUnmount.

(** A throw inside the snapshot callback leaves every cell as it was: no
    setter has run yet. *)
Definition deliverSnapshot (snapshot : QuerySnapshot) (st : AppState)
  : AppState :=
  match onSnapshotNext snapshot st with
  | Returned st' => st'
  | Thrown _ => st
  end.

(** One event.  A callback runs only while it is registered: auth events
    need the auth listener, snapshot events need the open subscription.  A
    sign-in rejection is accepted whenever the auth listener exists, and
    snapshots are accepted after a subscription error; both admit more
    behaviours than the SDK produces. *)
Definition step (c : Component) (e : Event) : Component :=
  match e with
  | EvAuthState user =>
      match authListener c with
      | Some cl =>
          let '(st, new_calls) := onAuthStateChangedNext cl user (view c) in
          commit (withView st new_calls c)
      | None => c
      end
  | EvSignInRejected message =>
      match authListener c with
      | Some _ => commit (withView (onSignInRejected message (view c)) [] c)
      | None => c
      end
  | EvSnapshot snapshot =>
      match subscription c with
      | Some _ => commit (withView (deliverSnapshot snapshot (view c)) [] c)
      | None => c
      end
  | EvSnapshotError message =>
      match subscription c with
      | Some _ => commit (withView (onSnapshotError message (view c)) [] c)
      | None => c
      end
  | EvUnmount =>
      {| view := view c;
         authListener := None;
         dataDeps := dataDeps c;
         subscription := None;
         calls :=
           calls c
           ++ match authListener c with
              | Some _ => [call_unsubscribeAuth]
              | None => []
              end
           ++ cleanupCalls (subscription c) |}
  end.

Definition run (g : Globals) (events : list Event) : Component :=
  foldl step (mount g) events.

(** ** Well-typed snapshots

    The data contract of the subscription: the [timestamp] field of a
    delivered record is a backend timestamp, null, or absent. *)
Definition timestamp_ok (doc : QueryDocumentSnapshot) : bool :=
  match doc_data doc !! "timestamp" with
  | None | Some JNull | Some (JTimestamp _) => true
  | Some _ => false
  end.

(** The window invariant: when the window is non-empty, [latestReading]
    is its first record. *)
Definition window_invariant (st : AppState) : Prop :=
  ∀ r, sensorReadings st !! 0%nat = Some r → latestReading st = Some r.

(** An auth event that resolves an identity the guard [db && userId]
    accepts. *)
Definition resolvesIdentity (e : Event) : bool :=
  match e with
  | EvAuthState (Some u) => truthy_string (uid u)
  | _ => false
  end.

(** Counting the listeners opened and closed in a call log. *)
Definition opensSubscription (k : Call) : bool :=
  match k with
  | call_onSnapshot _ => true
  | _ => false
  end.

Definition closesSubscription (k : Call) : bool :=
  match k with
  | call_unsubscribe _ => true
  | _ => false
  end.

Definition opened (ks : list Call) : nat :=
  length (List.filter opensSubscription ks).

Definition closed (ks : list Call) : nat :=
  length (List.filter closesSubscription ks).

(** Every listener opened so far has been closed again, except the one
    whose cleanup the component still holds. *)
Definition balanced (c : Component) : Prop :=
  opened (calls c)
  = (closed (calls c) + length (openCalls (subscription c)))%nat.

Definition noResolution (events : list Event) : bool :=
  forallb (λ e, negb (resolvesIdentity e)) events.

(** ** The rendering rule and the retention rule as the specification
    words them *)

(** A snapshot event that reaches the callback and is processed without a
    throw: a successful load. *)
Definition successfulLoad (c : Component) (e : Event) : bool :=
  match e, subscription c with
  | EvSnapshot snapshot, Some _ =>
      match onSnapshotNext snapshot (view c) with
      | Returned _ => true
      | Thrown _ => false
      end
  | _, _ => false
  end.

Fixpoint loadedDuring (c : Component) (events : list Event) : bool :=
  match events with
  | [] => false
  | e :: rest => successfulLoad c e || loadedDuring (step c e) rest
  end.

Definition isDashboard (screen : Screen) : bool :=
  match screen with
  | DashboardScreen _ _ _ => true
  | _ => false
  end.

(** The specification's render mode: the error panel only when no load has
    succeeded before, the dashboard otherwise. *)
Definition specRender (loaded : bool) (st : AppState) : Screen :=
  if isLoading st then LoadingScreen
  else
    match error st with
    | Some message =>
        if loaded then dashboard st else ErrorScreen message (shownUser st)
    | None => dashboard st
    end.

Definition render_follows_spec : Prop :=
  ∀ g events,
    render (view (run g events))
    = specRender (loadedDuring (mount g) events) (view (run g events)).

(** Newest first: the seconds of the timestamps do not increase. *)
Definition docSeconds (doc : QueryDocumentSnapshot) : Z :=
  match doc_data doc !! "timestamp" with
  | Some (JTimestamp t) => seconds t
  | _ => 0%Z
  end.

Fixpoint descending (snapshot : QuerySnapshot) : bool :=
  match snapshot with
  | d1 :: (d2 :: _) as rest =>
      bool_decide (docSeconds d2 ≤ docSeconds d1)%Z && descending rest
  | _ => true
  end.

(** ** The Reading record of a delivered entry, field by field

    Its [timestamp] is the point in time of a backend [Timestamp] and null
    otherwise; its [id] is the document id (the data's own [id] field where
    the data carries one); every other field is the data's. *)
Definition expectedTimestamp (doc : QueryDocumentSnapshot) : jsval :=
  match doc_data doc !! "timestamp" with
  | Some (JTimestamp t) => JDate (toDate t)
  | _ => JNull
  end.

Definition isReadingOf (doc : QueryDocumentSnapshot) (r : jsobject) : Prop :=
  r !! "timestamp" = Some (expectedTimestamp doc)
  ∧ r !! "id" = Some (default (JStr (doc_id doc)) (doc_data doc !! "id"))
  ∧ ∀ k, k ≠ "timestamp" → k ≠ "id" → r !! k = doc_data doc !! k.

(** Modelled from the spec: the external data collaborator's side of a live
    subscription (sections 4.2 and 6), which is not code of the repository.
    Each notification carries the result set of the query: of the records
    of the collection, taken in the order the query asks for, the first [n]
    when the query carries [limit(n)]. *)
Fixpoint limitOf (constraints : list QueryConstraint) : option nat :=
  match constraints with
  | [] => None
  | limit n :: _ => Some n
  | _ :: rest => limitOf rest
  end.

Definition resultSet (q : Query) (ordered : QuerySnapshot) : QuerySnapshot :=
  match limitOf (q_constraints q) with
  | Some n => take n ordered
  | None => ordered
  end.

(** Every message the component stores in [error] is a truthy string. *)
Definition error_truthy (st : AppState) : Prop :=
  ∀ message, error st = Some message → truthy_string message = true.

(** ** Further vocabulary for the properties *)

(** A record on which [convertTimestamp] throws: its [timestamp] is truthy
    and is not a [Timestamp]. *)
Definition throwsOn (doc : QueryDocumentSnapshot) : bool :=
  match doc_data doc !! "timestamp" with
  | Some (JTimestamp _) => false
  | Some v => truthy v
  | None => false
  end.

(** An event that leaves the loading state alone: anything but an auth
    event with a user and a sign-in rejection. *)
Definition quiet (e : Event) : bool :=
  match e with
  | EvAuthState (Some _) | EvSignInRejected _ => false
  | _ => true
  end.

(** Counting the auth listeners registered and released in a call log. *)
Definition registersAuth (k : Call) : bool :=
  match k with
  | call_onAuthStateChanged _ => true
  | _ => false
  end.

Definition releasesAuth (k : Call) : bool :=
  match k with
  | call_unsubscribeAuth => true
  | _ => false
  end.

Definition registered (ks : list Call) : nat :=
  length (List.filter registersAuth ks).

Definition released (ks : list Call) : nat :=
  length (List.filter releasesAuth ks).

(** The auth listener is registered and not yet released. *)
Definition listening (c : Component) : nat :=
  match authListener c with
  | Some _ => 1
  | None => 0
  end.

Definition isSnapshot (e : Event) : bool :=
  match e with
  | EvSnapshot _ => true
  | _ => false
  end.

(** Every snapshot delivered during [events] has at most [n] records. *)
Definition snapshotsWithin (n : nat) (events : list Event) : bool :=
  forallb (λ e, match e with
                | EvSnapshot snapshot => bool_decide (length snapshot ≤ n)%nat
                | _ => true
                end) events.

(** * Properties *)

(** ** Materialization *)

Lemma convertTimestamp_ok doc :
  timestamp_ok doc = true →
  ∃ ts, convertTimestamp (doc_data doc !! "timestamp") = Returned ts.
Proof.
  unfold timestamp_ok, convertTimestamp.
  destruct (doc_data doc !! "timestamp") as [[]|]; intros ?; simplify_eq/=; eauto.
Qed.

Lemma materialize_ok doc :
  timestamp_ok doc = true → ∃ r, materialize doc = Returned r.
Proof.
  intros [ts Hts]%convertTimestamp_ok. unfold materialize.
  rewrite Hts. simpl. eauto.
Qed.

(** Every field of the data other than [timestamp] is copied. *)
Lemma materialize_copies doc r k :
  materialize doc = Returned r → k ≠ "timestamp" →
  is_Some (doc_data doc !! k) → r !! k = doc_data doc !! k.
Proof.
  unfold materialize. intros Hm Hk [v Hv].
  destruct (convertTimestamp _) as [ts|]; simplify_eq/=.
  rewrite lookup_insert_ne by done.
  rewrite Hv. by apply lookup_union_Some_l.
Qed.

(** [id] is the document id unless the data carries its own [id] field. *)
Lemma materialize_id doc r :
  materialize doc = Returned r → doc_data doc !! "id" = None →
  r !! "id" = Some (JStr (doc_id doc)).
Proof.
  unfold materialize. intros Hm Hid.
  destruct (convertTimestamp _) as [ts|]; simplify_eq/=.
  rewrite lookup_insert_ne by done.
  rewrite lookup_union_r by done. apply lookup_singleton_eq.
Qed.

(** The loop appends the materialized records to the array, in order, and
    throws exactly when one record does. *)
Lemma forEach_push_Returned docs : ∀ acc out,
  forEach_push docs acc = Returned out ↔
  ∃ rs, out = acc ++ rs ∧ Forall2 (λ d r, materialize d = Returned r) docs rs.
Proof.
  induction docs as [|d docs IH]; intros acc out; simpl.
  - split.
    + intros [= <-]. exists []. by rewrite app_nil_r.
    + intros (rs & -> & ->%Forall2_nil_inv_l). by rewrite app_nil_r.
  - destruct (materialize d) as [r|msg] eqn:Hd; simpl.
    + rewrite IH. split.
      * intros (rs & -> & Hrs). exists (r :: rs).
        rewrite <- app_assoc. split; [done|]. by constructor.
      * intros (rs & -> & Hrs).
        apply Forall2_cons_inv_l in Hrs as (r' & rs' & Hr & Hrs & ->).
        rewrite Hd in Hr. injection Hr as <-.
        exists rs'. rewrite <- app_assoc. by split.
    + split; [done|].
      intros (rs & _ & Hrs).
      apply Forall2_cons_inv_l in Hrs as (r' & rs' & Hr & _ & _).
      congruence.
Qed.

Lemma forEach_push_total docs acc :
  forallb timestamp_ok docs = true →
  ∃ rs, forEach_push docs acc = Returned (acc ++ rs)
        ∧ Forall2 (λ d r, materialize d = Returned r) docs rs.
Proof.
  revert acc. induction docs as [|d docs IH]; intros acc Hok; simpl in *.
  - exists []. by rewrite app_nil_r.
  - apply andb_prop in Hok as [Hd Hok].
    destruct (materialize_ok d Hd) as [r Hr]. rewrite Hr. simpl.
    destruct (IH (acc ++ [r]) Hok) as (rs & Hrs & HF).
    exists (r :: rs). rewrite Hrs, <- app_assoc. split; [done|].
    by constructor.
Qed.

(** ** The snapshot callback, field by field *)

Lemma onSnapshotNext_Returned snapshot st readings :
  forEach_push snapshot [] = Returned readings →
  onSnapshotNext snapshot st =
    Returned
      {| db := db st; auth := auth st; userId := userId st;
         latestReading :=
           match readings with
           | r :: _ => Some r
           | [] => latestReading st
           end;
         sensorReadings := readings;
         error := error st;
         isLoading := false |}.
Proof.
  intros Hrs. unfold onSnapshotNext. rewrite Hrs. simpl.
  destruct readings; reflexivity.
Qed.

Lemma onSnapshotNext_Thrown snapshot st msg :
  forEach_push snapshot [] = Thrown msg →
  onSnapshotNext snapshot st = Thrown msg.
Proof. intros Hrs. unfold onSnapshotNext. by rewrite Hrs. Qed.

(** ** What a commit can change *)

(** A commit either leaves the cells alone or is a run of the data effect
    under its guard, which clears [error] and opens the listener. *)
Lemma commit_view_cases c :
  commit c = c
  ∨ (dataDeps c ≠ (db (view c), userId (view c))
     ∧ view (commit c) = view c
     ∧ subscription (commit c) = None
     ∧ calls (commit c) = calls c ++ cleanupCalls (subscription c))
  ∨ (dataDeps c ≠ (db (view c), userId (view c))
     ∧ view (commit c) = setError None (view c)
     ∧ ∃ firestoreDb,
         db (view c) = Some firestoreDb
         ∧ truthy_nullable_string (userId (view c)) = true
         ∧ subscription (commit c) = Some (sensorQuery firestoreDb)
         ∧ calls (commit c) =
             calls c ++ cleanupCalls (subscription c)
             ++ [call_onSnapshot (sensorQuery firestoreDb)]).
Proof.
  unfold commit, dataEffect.
  destruct (decide _) as [Heq|Hne]; [by left|]. right.
  destruct (db (view c)) as [fs|] eqn:Hdb; simpl.
  - destruct (truthy_nullable_string (userId (view c))) eqn:Hu; simpl.
    + right. split; [done|]. split; [done|]. by exists fs.
    + left. by rewrite app_nil_r.
  - left. by rewrite app_nil_r.
Qed.

Lemma commit_sensorReadings c :
  sensorReadings (view (commit c)) = sensorReadings (view c).
Proof.
  destruct (commit_view_cases c) as [->|[(_ & -> & _)|(_ & -> & _)]]; done.
Qed.

Lemma commit_latestReading c :
  latestReading (view (commit c)) = latestReading (view c).
Proof.
  destruct (commit_view_cases c) as [->|[(_ & -> & _)|(_ & -> & _)]]; done.
Qed.

Lemma commit_isLoading c : isLoading (view (commit c)) = isLoading (view c).
Proof.
  destruct (commit_view_cases c) as [->|[(_ & -> & _)|(_ & -> & _)]]; done.
Qed.

Lemma commit_db c : db (view (commit c)) = db (view c).
Proof.
  destruct (commit_view_cases c) as [->|[(_ & -> & _)|(_ & -> & _)]]; done.
Qed.

Lemma commit_auth c : auth (view (commit c)) = auth (view c).
Proof.
  destruct (commit_view_cases c) as [->|[(_ & -> & _)|(_ & -> & _)]]; done.
Qed.

Lemma commit_userId c : userId (view (commit c)) = userId (view c).
Proof.
  destruct (commit_view_cases c) as [->|[(_ & -> & _)|(_ & -> & _)]]; done.
Qed.

Lemma commit_authListener c : authListener (commit c) = authListener c.
Proof.
  unfold commit. destruct (decide _); [done|]. by destruct (dataEffect _).
Qed.

(** After a commit the recorded dependencies are the current ones. *)
Lemma commit_dataDeps c :
  dataDeps (commit c) = (db (view (commit c)), userId (view (commit c))).
Proof.
  unfold commit, dataEffect. destruct (decide _) as [Heq|Hne]; [done|].
  destruct (db (view c)) eqn:Hdb; simpl;
    [destruct (truthy_nullable_string _); simpl|]; by rewrite ?Hdb.
Qed.

(** A commit with up-to-date dependencies does nothing. *)
Lemma commit_in_sync c :
  dataDeps c = (db (view c), userId (view c)) → commit c = c.
Proof. intros Heq. unfold commit. by rewrite decide_True. Qed.

Lemma commit_idemp c : commit (commit c) = commit c.
Proof. apply commit_in_sync, commit_dataDeps. Qed.

(** ** The delivered snapshot, at the component *)

Lemma deliverSnapshot_Returned snapshot st readings :
  forEach_push snapshot [] = Returned readings →
  deliverSnapshot snapshot st =
    {| db := db st; auth := auth st; userId := userId st;
       latestReading :=
         match readings with
         | r :: _ => Some r
         | [] => latestReading st
         end;
       sensorReadings := readings;
       error := error st;
       isLoading := false |}.
Proof.
  intros Hrs. unfold deliverSnapshot.
  by rewrite (onSnapshotNext_Returned _ _ _ Hrs).
Qed.

Lemma deliverSnapshot_Thrown snapshot st msg :
  forEach_push snapshot [] = Thrown msg → deliverSnapshot snapshot st = st.
Proof.
  intros Hrs. unfold deliverSnapshot.
  by rewrite (onSnapshotNext_Thrown _ _ _ Hrs).
Qed.

(** The cells the snapshot callback never writes. *)
Lemma deliverSnapshot_frame snapshot st :
  db (deliverSnapshot snapshot st) = db st
  ∧ auth (deliverSnapshot snapshot st) = auth st
  ∧ userId (deliverSnapshot snapshot st) = userId st
  ∧ error (deliverSnapshot snapshot st) = error st.
Proof.
  destruct (forEach_push snapshot []) as [rs|msg] eqn:Hrs.
  - by rewrite (deliverSnapshot_Returned _ _ _ Hrs).
  - by rewrite (deliverSnapshot_Thrown _ _ _ Hrs).
Qed.

(** Delivering the same snapshot again changes nothing. *)
Lemma deliverSnapshot_idemp snapshot st :
  deliverSnapshot snapshot (deliverSnapshot snapshot st)
  = deliverSnapshot snapshot st.
Proof.
  destruct (forEach_push snapshot []) as [rs|msg] eqn:Hrs.
  - rewrite !(deliverSnapshot_Returned _ _ _ Hrs). by destruct rs.
  - by rewrite !(deliverSnapshot_Thrown _ _ _ Hrs).
Qed.

Lemma deliverSnapshot_setError snapshot e st :
  deliverSnapshot snapshot (setError e st)
  = setError e (deliverSnapshot snapshot st).
Proof.
  destruct (forEach_push snapshot []) as [rs|msg] eqn:Hrs.
  - by rewrite !(deliverSnapshot_Returned _ _ _ Hrs).
  - by rewrite !(deliverSnapshot_Thrown _ _ _ Hrs).
Qed.

Lemma withView_id c : withView (view c) [] c = c.
Proof. destruct c. unfold withView. simpl. by rewrite app_nil_r. Qed.

(** ** Reachable components *)

Lemma run_snoc g events e : run g (events ++ [e]) = step (run g events) e.
Proof. unfold run. by rewrite foldl_snoc. Qed.

Lemma mount_in_sync g :
  dataDeps (mount g) = (db (view (mount g)), userId (view (mount g))).
Proof. unfold mount. destruct (initEffect _ _). apply commit_dataDeps. Qed.

Lemma step_in_sync c e :
  dataDeps c = (db (view c), userId (view c)) →
  dataDeps (step c e) = (db (view (step c e)), userId (view (step c e))).
Proof.
  intros Hc. destruct e; simpl.
  - destruct (authListener c); [|done].
    destruct (onAuthStateChangedNext _ _ _). apply commit_dataDeps.
  - destruct (authListener c); [|done]. apply commit_dataDeps.
  - destruct (subscription c); [|done]. apply commit_dataDeps.
  - destruct (subscription c); [|done]. apply commit_dataDeps.
  - done.
Qed.

(** The dependency record of a reachable component is up to date. *)
Lemma run_in_sync g events :
  dataDeps (run g events)
  = (db (view (run g events)), userId (view (run g events))).
Proof.
  induction events as [|e events IH] using rev_ind.
  - apply mount_in_sync.
  - rewrite run_snoc. by apply step_in_sync.
Qed.

(** On an up-to-date component the snapshot event is the callback alone:
    it changes no dependency, so no effect re-runs. *)
Lemma step_snapshot_in_sync c q snapshot :
  subscription c = Some q →
  dataDeps c = (db (view c), userId (view c)) →
  step c (EvSnapshot snapshot)
  = withView (deliverSnapshot snapshot (view c)) [] c.
Proof.
  intros Hq Hc. simpl. rewrite Hq. apply commit_in_sync. simpl.
  destruct (deliverSnapshot_frame snapshot (view c)) as (-> & _ & -> & _).
  done.
Qed.


(** ** The reading window *)

(** What the object literal of the callback builds. *)
Lemma materialize_isReadingOf doc r :
  materialize doc = Returned r → isReadingOf doc r.
Proof.
  unfold materialize, convertTimestamp, isReadingOf, expectedTimestamp.
  intros Hm.
  assert (∀ ts : jsval,
            (<["timestamp" := ts]>
               (doc_data doc ∪ {["id" := JStr (doc_id doc)]}) : jsobject)
              !! "id"
            = Some (default (JStr (doc_id doc)) (doc_data doc !! "id")))
    as Hid.
  { intros ts. rewrite lookup_insert_ne by done.
    rewrite lookup_union, lookup_singleton_eq.
    by destruct (doc_data doc !! "id"). }
  assert (∀ (ts : jsval) k, k ≠ "timestamp" → k ≠ "id" →
            (<["timestamp" := ts]>
               (doc_data doc ∪ {["id" := JStr (doc_id doc)]}) : jsobject) !! k
            = doc_data doc !! k) as Hother.
  { intros ts k Hk1 Hk2. rewrite lookup_insert_ne by done.
    by rewrite lookup_union_l by by rewrite lookup_singleton_ne. }
  destruct (doc_data doc !! "timestamp") as [v|];
    [destruct (truthy v) eqn:Ht; destruct v|]; simplify_eq/=;
    (split; [by rewrite lookup_insert_eq|]); split; auto.
Qed.

(** C1: a non-empty, well-typed snapshot delivered to the live listener
    makes [sensorReadings] the materialized snapshot, record for record and
    in the same order, and makes [latestReading] its first record.  Each
    record of the window is the Reading of the entry at its position: the
    entry's fields, the document id as [id], and the [timestamp] as a
    [Date] or null. *)
Theorem snapshot_replaces_window c q snapshot :
  subscription c = Some q →
  snapshot ≠ [] →
  forallb timestamp_ok snapshot = true →
  ∃ readings st',
    onSnapshotNext snapshot (view c) = Returned st'
    ∧ Forall2 (λ d r, materialize d = Returned r) snapshot readings
    ∧ sensorReadings st' = readings
    ∧ sensorReadings (view (step c (EvSnapshot snapshot))) = readings
    ∧ latestReading st' = readings !! 0%nat
    ∧ latestReading (view (step c (EvSnapshot snapshot))) = readings !! 0%nat
    ∧ (∃ d0 r0, snapshot !! 0%nat = Some d0
                ∧ materialize d0 = Returned r0
                ∧ readings !! 0%nat = Some r0)
    ∧ Forall2 isReadingOf snapshot readings.
Proof.
  intros Hq Hne Hok.
  destruct (forEach_push_total snapshot [] Hok) as (rs & Hrs & HF).
  simpl in Hrs. exists rs. eexists.
  split; [by apply onSnapshotNext_Returned|].
  split; [done|]. simpl. rewrite Hq.
  rewrite commit_sensorReadings, commit_latestReading. simpl.
  rewrite (deliverSnapshot_Returned _ _ _ Hrs). simpl.
  assert (Forall2 isReadingOf snapshot rs) as HR.
  { eapply Forall2_impl; [exact HF|]. apply materialize_isReadingOf. }
  destruct HF as [|d r ds rs' Hd HF]; [done|]. simpl.
  repeat (split; [done|]). split; [by exists d, r|done].
Qed.

(** C2: an empty snapshot processed when a latest reading is already set
    keeps that reading, empties [sensorReadings] and clears [isLoading];
    and no event whatsoever resets a set [latestReading] to null. *)
Theorem empty_snapshot_keeps_latest c q r :
  subscription c = Some q →
  latestReading (view c) = Some r →
  latestReading (view (step c (EvSnapshot []))) = Some r
  ∧ sensorReadings (view (step c (EvSnapshot []))) = []
  ∧ isLoading (view (step c (EvSnapshot []))) = false
  ∧ ∀ e, is_Some (latestReading (view (step c e))).
Proof.
  intros Hq Hr. simpl. rewrite Hq.
  rewrite commit_sensorReadings, commit_latestReading, commit_isLoading.
  simpl. repeat (split; [done|]).
  intros e. destruct e; simpl.
  - destruct (authListener c); [|by rewrite Hr].
    destruct user; simpl; rewrite commit_latestReading; simpl; by rewrite Hr.
  - destruct (authListener c); [|by rewrite Hr].
    rewrite commit_latestReading. simpl. by rewrite Hr.
  - rewrite Hq, commit_latestReading. simpl.
    destruct (forEach_push snapshot []) as [rs|msg] eqn:Hrs.
    + rewrite (deliverSnapshot_Returned _ _ _ Hrs). simpl.
      destruct rs; [by rewrite Hr|done].
    + rewrite (deliverSnapshot_Thrown _ _ _ Hrs). by rewrite Hr.
  - rewrite Hq, commit_latestReading. simpl. by rewrite Hr.
  - by rewrite Hr.
Qed.

Lemma step_window_invariant c e :
  window_invariant (view c) → window_invariant (view (step c e)).
Proof.
  unfold window_invariant. intros Hc r. destruct e; simpl.
  - destruct (authListener c); [|by auto].
    destruct user; simpl;
      rewrite commit_sensorReadings, commit_latestReading; simpl; auto.
  - destruct (authListener c); [|by auto].
    rewrite commit_sensorReadings, commit_latestReading. simpl. auto.
  - destruct (subscription c); [|by auto].
    rewrite commit_sensorReadings, commit_latestReading. simpl.
    destruct (forEach_push snapshot []) as [rs|msg] eqn:Hrs.
    + rewrite (deliverSnapshot_Returned _ _ _ Hrs). simpl.
      destruct rs; simpl; [done|congruence].
    + rewrite (deliverSnapshot_Thrown _ _ _ Hrs). auto.
  - destruct (subscription c); [|by auto].
    rewrite commit_sensorReadings, commit_latestReading. simpl. auto.
  - auto.
Qed.

Lemma mount_window_invariant g : window_invariant (view (mount g)).
Proof.
  unfold window_invariant, mount, initEffect. intros r.
  destruct (initAttempt g) as [[[fs fa]|]|msg];
    rewrite commit_sensorReadings; simpl; done.
Qed.

Lemma run_window_invariant g events :
  window_invariant (view (run g events)).
Proof.
  induction events as [|e events IH] using rev_ind.
  - apply mount_window_invariant.
  - rewrite run_snoc. by apply step_window_invariant.
Qed.

(** C3: [latestReading] is the first record of a non-empty window in the
    initial state and in every state the component reaches, whatever events
    (snapshots, errors, auth changes) arrive next; a snapshot that is
    processed sets a window that depends on the snapshot alone, and a
    subscription error leaves the window as it is. *)
Theorem latest_is_window_head g events :
  window_invariant initialState
  ∧ window_invariant (view (run g events))
  ∧ (∀ e, window_invariant (view (step (run g events) e)))
  ∧ (∀ snapshot st1 st2 st1',
       onSnapshotNext snapshot st1 = Returned st1' →
       forEach_push snapshot [] = Returned (sensorReadings st1')
       ∧ ∃ st2', onSnapshotNext snapshot st2 = Returned st2'
                 ∧ sensorReadings st2' = sensorReadings st1')
  ∧ (∀ message st,
       sensorReadings (onSnapshotError message st) = sensorReadings st
       ∧ latestReading (onSnapshotError message st) = latestReading st).
Proof.
  split; [done|].
  split; [apply run_window_invariant|].
  split; [intros e; apply step_window_invariant, run_window_invariant|].
  split; [|done].
  intros snapshot st1 st2 st1'.
  destruct (forEach_push snapshot []) as [rs|msg] eqn:Hrs.
  - rewrite !(onSnapshotNext_Returned _ _ _ Hrs). intros [= <-].
    split; [done|]. by eexists.
  - by rewrite (onSnapshotNext_Thrown _ _ _ Hrs).
Qed.

(** ** Subscription errors *)


(** ** Idempotence *)

(** C9: delivering the same snapshot a second time leaves the component,
    and so its ViewState, exactly as the first delivery left it. *)
Theorem snapshot_idempotent c snapshot :
  step (step c (EvSnapshot snapshot)) (EvSnapshot snapshot)
  = step c (EvSnapshot snapshot).
Proof.
  simpl. destruct (subscription c) as [q|] eqn:Hq; [|by rewrite Hq].
  set (w := withView (deliverSnapshot snapshot (view c)) [] c).
  destruct (subscription (commit w)) as [q'|] eqn:Hq'; [|done].
  assert (deliverSnapshot snapshot (view (commit w)) = view (commit w)) as ->.
  { destruct (commit_view_cases w) as [->|[(_ & -> & _)|(_ & -> & _)]];
      subst w; simpl;
      by rewrite ?deliverSnapshot_setError, deliverSnapshot_idemp. }
  rewrite withView_id. apply commit_idemp.
Qed.

(** ** The error cell *)

Lemma commit_clears_error w :
  is_Some (error (view w)) →
  error (view (commit w)) = None →
  dataDeps w ≠ (db (view (commit w)), userId (view (commit w)))
  ∧ ∃ firestoreDb,
      db (view (commit w)) = Some firestoreDb
      ∧ truthy_nullable_string (userId (view (commit w))) = true
      ∧ last (calls (commit w)) = Some (call_onSnapshot (sensorQuery firestoreDb)).
Proof.
  intros [m Hm] Hnone.
  destruct (commit_view_cases w)
    as [Heq|[(_ & Hv & _)|(Hne & Hv & fs & Hdb & Hu & _ & Hcalls)]].
  - rewrite Heq in Hnone. congruence.
  - rewrite Hv in Hnone. congruence.
  - rewrite Hv. simpl. split; [done|]. exists fs.
    split; [done|]. split; [done|].
    by rewrite Hcalls, app_assoc, last_snoc.
Qed.

(** An event either runs a callback and commits, or leaves the cells
    alone; no callback writes null into a set [error]. *)
Lemma step_shape c e :
  (∃ st new_calls,
     step c e = commit (withView st new_calls c)
     ∧ (error st = error (view c) ∨ is_Some (error st)))
  ∨ view (step c e) = view c.
Proof.
  destruct e; simpl.
  - destruct (authListener c); [|by right]. left.
    destruct user; simpl; eexists _, _; (split; [reflexivity|]); by left.
  - destruct (authListener c); [|by right]. left.
    eexists _, _. split; [reflexivity|]. by right.
  - destruct (subscription c); [|by right]. left.
    eexists _, _. split; [reflexivity|]. left.
    by destruct (deliverSnapshot_frame snapshot (view c)) as (_ & _ & _ & ->).
  - destruct (subscription c); [|by right]. left.
    eexists _, _. split; [reflexivity|]. by right.
  - by right.
Qed.

(** C10: on a reachable component a snapshot event leaves [error] (and
    [db], [auth], [userId]) as they were, and so does the callback itself on
    any state; an event takes [error] from set to null only by re-running
    the data effect, that is, only when [[db, userId]] changed and both are
    truthy, in which case the step ends by opening the listener. *)
Theorem snapshot_keeps_error g events :
  (∀ snapshot,
     error (view (step (run g events) (EvSnapshot snapshot)))
       = error (view (run g events))
     ∧ db (view (step (run g events) (EvSnapshot snapshot)))
       = db (view (run g events))
     ∧ auth (view (step (run g events) (EvSnapshot snapshot)))
       = auth (view (run g events))
     ∧ userId (view (step (run g events) (EvSnapshot snapshot)))
       = userId (view (run g events)))
  ∧ (∀ snapshot st st',
       onSnapshotNext snapshot st = Returned st' →
       error st' = error st ∧ db st' = db st
       ∧ auth st' = auth st ∧ userId st' = userId st)
  ∧ (∀ e,
       is_Some (error (view (run g events))) →
       error (view (step (run g events) e)) = None →
       (db (view (step (run g events) e)),
        userId (view (step (run g events) e)))
         ≠ (db (view (run g events)), userId (view (run g events)))
       ∧ ∃ firestoreDb,
           db (view (step (run g events) e)) = Some firestoreDb
           ∧ truthy_nullable_string (userId (view (step (run g events) e)))
             = true
           ∧ last (calls (step (run g events) e))
             = Some (call_onSnapshot (sensorQuery firestoreDb))).
Proof.
  pose proof (run_in_sync g events) as Hsync.
  set (c := run g events) in *.
  split; [|split].
  - intros snapshot. destruct (subscription c) as [q|] eqn:Hq.
    + rewrite (step_snapshot_in_sync _ _ _ Hq Hsync). simpl.
      destruct (deliverSnapshot_frame snapshot (view c)) as (-> & -> & -> & ->).
      done.
    + simpl. by rewrite Hq.
  - intros snapshot st st' Hst.
    pose proof (deliverSnapshot_frame snapshot st) as Hf.
    unfold deliverSnapshot in Hf. rewrite Hst in Hf.
    by destruct Hf as (-> & -> & -> & ->).
  - intros e Hset Hnone. rewrite <- Hsync.
    destruct (step_shape c e) as [(st & new_calls & Heq & Herr)|Hv].
    + rewrite Heq in *.
      destruct (commit_clears_error (withView st new_calls c))
        as [Hne Hex]; [|done|].
      { simpl. destruct Herr as [->|?]; done. }
      split; [|done]. intros Hd. apply Hne. by rewrite Hd.
    + rewrite Hv in Hnone. destruct Hset as [m Hm]. congruence.
Qed.

(** ** Missing configuration *)

(** Without a registered callback no event has a handler to run. *)
Lemma step_dead c e :
  authListener c = None → subscription c = None → step c e = c.
Proof.
  intros Ha Hs. destruct e; simpl; rewrite ?Ha, ?Hs; try done.
  destruct c; simpl in *. subst. by rewrite app_nil_r.
Qed.

Lemma initAttempt_missing g :
  __firebase_config g = None
  ∨ (∃ text, __firebase_config g = Some text
             ∧ JSON_parse text = Returned (JObject ∅)) →
  initAttempt g = Returned None.
Proof.
  unfold initAttempt. intros [->|(text & -> & ->)]; reflexivity.
Qed.

(** C6: when [__firebase_config] is undefined or parses to an object
    without keys, the component is mounted with [isLoading = false], the
    configuration-not-found message in [error], an empty window, no
    Firestore or Auth handle, no auth listener, no subscription and no call
    on the backend; and it stays so under every later event. *)
Theorem missing_configuration_is_terminal g events :
  __firebase_config g = None
  ∨ (∃ text, __firebase_config g = Some text
             ∧ JSON_parse text = Returned (JObject ∅)) →
  view (run g events)
  = {| db := None; auth := None; userId := None; latestReading := None;
       sensorReadings := [];
       error :=
         Some "Firebase configuration not found. Please ensure __firebase_config is set.";
       isLoading := false |}
  ∧ authListener (run g events) = None
  ∧ subscription (run g events) = None
  ∧ calls (run g events) = [].
Proof.
  intros Hcfg%initAttempt_missing.
  induction events as [|e events IH] using rev_ind.
  - unfold run, mount, initEffect. simpl. by rewrite Hcfg.
  - rewrite run_snoc. destruct IH as (Hv & Ha & Hs & Hc).
    by rewrite (step_dead _ _ Ha Hs).
Qed.

(** ** Opening the subscription *)

Lemma opened_app ks1 ks2 : opened (ks1 ++ ks2) = (opened ks1 + opened ks2)%nat.
Proof. unfold opened. by rewrite List.filter_app, length_app. Qed.

Lemma closed_app ks1 ks2 : closed (ks1 ++ ks2) = (closed ks1 + closed ks2)%nat.
Proof. unfold closed. by rewrite List.filter_app, length_app. Qed.

(** A log that counts no opened listener contains no [onSnapshot] call. *)
Lemma not_opened_elem q ks : opened ks = 0%nat → call_onSnapshot q ∉ ks.
Proof.
  unfold opened. induction ks as [|k ks IH]; intros Hks Hin.
  - by apply elem_of_nil in Hin.
  - apply elem_of_cons in Hin as [<-|Hin]; [done|].
    simpl in Hks. destruct (opensSubscription k); [done|]. by apply IH.
Qed.

Lemma not_open_in_cleanup q sub : call_onSnapshot q ∉ cleanupCalls sub.
Proof. apply not_opened_elem. by destruct sub. Qed.

(** The listeners a commit opens are the query of the data effect, on the
    current handle and with a truthy identity. *)
Lemma commit_calls w :
  ∃ added,
    calls (commit w) = calls w ++ added
    ∧ ∀ q, call_onSnapshot q ∈ added →
        (∃ firestoreDb, db (view (commit w)) = Some firestoreDb
                        ∧ q = sensorQuery firestoreDb)
        ∧ truthy_nullable_string (userId (view (commit w))) = true.
Proof.
  destruct (commit_view_cases w)
    as [Heq|[(_ & _ & _ & Hc)|(_ & Hv & fs & Hdb & Hu & _ & Hc)]].
  - exists []. rewrite Heq, app_nil_r. split; [done|].
    intros q Hq. by apply elem_of_nil in Hq.
  - exists (cleanupCalls (subscription w)). split; [done|].
    intros q Hq. by apply not_open_in_cleanup in Hq.
  - exists (cleanupCalls (subscription w) ++ [call_onSnapshot (sensorQuery fs)]).
    split; [done|]. intros q [Hq|Hq]%elem_of_app.
    + by apply not_open_in_cleanup in Hq.
    + apply list_elem_of_singleton in Hq as [= ->]. rewrite Hv. simpl.
      split; [by exists fs|done].
Qed.

Lemma step_calls c e :
  ∃ added,
    calls (step c e) = calls c ++ added
    ∧ ∀ q, call_onSnapshot q ∈ added →
        (∃ firestoreDb, db (view (step c e)) = Some firestoreDb
                        ∧ q = sensorQuery firestoreDb)
        ∧ truthy_nullable_string (userId (view (step c e))) = true.
Proof.
  assert (∀ st new_calls,
            opened new_calls = 0%nat →
            ∃ added,
              calls (commit (withView st new_calls c)) = calls c ++ added
              ∧ ∀ q, call_onSnapshot q ∈ added →
                  (∃ firestoreDb,
                     db (view (commit (withView st new_calls c)))
                       = Some firestoreDb
                     ∧ q = sensorQuery firestoreDb)
                  ∧ truthy_nullable_string
                      (userId (view (commit (withView st new_calls c))))
                    = true) as Hcommit.
  { intros st new_calls Hnew.
    destruct (commit_calls (withView st new_calls c)) as (added & Hc & Hq).
    exists (new_calls ++ added). simpl in Hc. rewrite Hc, app_assoc.
    split; [done|]. intros q [Hin|Hin]%elem_of_app; [|by apply Hq].
    by apply not_opened_elem in Hin. }
  assert (∃ added,
            calls c = calls c ++ added
            ∧ ∀ q, call_onSnapshot q ∈ added →
                (∃ firestoreDb, db (view c) = Some firestoreDb
                                ∧ q = sensorQuery firestoreDb)
                ∧ truthy_nullable_string (userId (view c)) = true) as Hsame.
  { exists []. rewrite app_nil_r. split; [done|].
    intros q Hq. by apply elem_of_nil in Hq. }
  destruct e; simpl.
  - destruct (authListener c) as [cl|]; [|done].
    destruct user; simpl; apply Hcommit; [done|].
    destruct (initialAuthToken cl) as [token|];
      [destruct (truthy_string token)|]; done.
  - destruct (authListener c); [|done]. by apply Hcommit.
  - destruct (subscription c); [|done]. by apply Hcommit.
  - destruct (subscription c); [|done]. by apply Hcommit.
  - eexists. split; [reflexivity|]. intros q Hin. exfalso.
    revert Hin. apply not_opened_elem. rewrite opened_app.
    by destruct (authListener c), (subscription c).
Qed.

(** The Firestore handle is written once, by the initialization effect. *)
Lemma step_db c e : db (view (step c e)) = db (view c).
Proof.
  destruct e; simpl.
  - destruct (authListener c); [|done].
    destruct user; simpl; by rewrite commit_db.
  - destruct (authListener c); [|done]. by rewrite commit_db.
  - destruct (subscription c); [|done]. rewrite commit_db. simpl.
    by destruct (deliverSnapshot_frame snapshot (view c)) as (-> & _).
  - destruct (subscription c); [|done]. by rewrite commit_db.
  - done.
Qed.

Lemma run_db g events : db (view (run g events)) = db (view (mount g)).
Proof.
  induction events as [|e events IH] using rev_ind; [done|].
  by rewrite run_snoc, step_db.
Qed.

Lemma mount_calls g q :
  call_onSnapshot q ∈ calls (mount g) →
  truthy_nullable_string (userId (view (mount g))) = true.
Proof.
  unfold mount. destruct (initEffect g initialState) as [st listener].
  match goal with |- context [commit ?w] => set (w0 := w) end.
  destruct (commit_calls w0) as (added & -> & Hq).
  intros [Hin|Hin]%elem_of_app; [|by destruct (Hq _ Hin) as [_ ?]].
  subst w0. simpl in Hin. exfalso. revert Hin. apply not_opened_elem.
  by destruct listener.
Qed.

Lemma mount_userId g : userId (view (mount g)) = None.
Proof.
  unfold mount, initEffect.
  destruct (initAttempt g) as [[[fs fa]|]|msg]; by rewrite commit_userId.
Qed.

(** Only an auth event with a user writes [userId]. *)
Lemma step_userId c e :
  userId (view (step c e)) = userId (view c)
  ∨ ∃ u, e = EvAuthState (Some u) ∧ userId (view (step c e)) = Some (uid u).
Proof.
  destruct e; simpl.
  - destruct (authListener c); [|by left].
    destruct user as [u|]; simpl; rewrite commit_userId; simpl;
      [right; by exists u|by left].
  - destruct (authListener c); [|by left]. rewrite commit_userId. by left.
  - destruct (subscription c); [|by left]. rewrite commit_userId. simpl.
    left. by destruct (deliverSnapshot_frame snapshot (view c)) as (_ & _ & -> & _).
  - destruct (subscription c); [|by left]. rewrite commit_userId. by left.
  - by left.
Qed.

(** Until an auth event resolves a truthy identity, [userId] is falsy and no
    listener has been opened. *)
Lemma run_noResolution g events :
  noResolution events = true →
  truthy_nullable_string (userId (view (run g events))) = false
  ∧ ∀ q, call_onSnapshot q ∉ calls (run g events).
Proof.
  unfold noResolution.
  induction events as [|e events IH] using rev_ind; intros Hno.
  - assert (truthy_nullable_string (userId (view (run g []))) = false) as Hu.
    { unfold run. simpl. by rewrite mount_userId. }
    split; [done|]. intros q Hq. pose proof (mount_calls _ _ Hq) as Ht.
    unfold run in Hu. simpl in Hu. congruence.
  - rewrite forallb_app in Hno. apply andb_prop in Hno as [Hno He].
    simpl in He. rewrite andb_true_r in He. apply negb_true_iff in He.
    destruct (IH Hno) as [Hu Hcalls]. rewrite run_snoc.
    assert (truthy_nullable_string (userId (view (step (run g events) e)))
            = false) as Hu'.
    { destruct (step_userId (run g events) e) as [->|(u & -> & ->)]; [done|].
      exact He. }
    split; [done|]. intros q.
    destruct (step_calls (run g events) e) as (added & -> & Hq).
    intros [Hin|Hin]%elem_of_app; [by destruct (Hcalls _ Hin)|].
    destruct (Hq _ Hin) as [_ Ht]. congruence.
Qed.

(** The events up to the first identity resolution, if there is one. *)
Lemma first_resolution events :
  noResolution events = true
  ∨ ∃ before u after,
      events = before ++ EvAuthState (Some u) :: after
      ∧ truthy_string (uid u) = true
      ∧ noResolution before = true.
Proof.
  unfold noResolution. induction events as [|e events IH]; [by left|].
  destruct (resolvesIdentity e) eqn:He.
  - right. destruct e as [[u|]| | | |]; simplify_eq/=.
    by exists [], u, events.
  - destruct IH as [IH|(before & u & after & -> & Hu & Hb)].
    + left. simpl. by rewrite He.
    + right. exists (e :: before), u, after. simpl. by rewrite He.
Qed.

(** Every listener in the log was opened with the query of the data
    effect on the component's Firestore handle. *)
Lemma run_opened_canonical g events q :
  call_onSnapshot q ∈ calls (run g events) →
  ∃ firestoreDb,
    db (view (run g events)) = Some firestoreDb ∧ q = sensorQuery firestoreDb.
Proof.
  induction events as [|e events IH] using rev_ind.
  - intros Hq. pose proof (mount_calls _ _ Hq) as Ht.
    by rewrite mount_userId in Ht.
  - rewrite run_snoc.
    destruct (step_calls (run g events) e) as (added & Hc & Hq).
    rewrite Hc. intros [Hin|Hin]%elem_of_app.
    + rewrite step_db. by apply IH.
    + by destruct (Hq _ Hin) as [? _].
Qed.

Lemma commit_balanced w : balanced w → balanced (commit w).
Proof.
  unfold balanced, commit. intros Hw.
  destruct (decide _); [done|].
  destruct (dataEffect (view w)) as [st sub]. simpl.
  rewrite !opened_app, !closed_app, Hw.
  destruct (subscription w), sub; simpl; unfold opened, closed; simpl; lia.
Qed.

Lemma step_balanced c e : balanced c → balanced (step c e).
Proof.
  intros Hc.
  assert (∀ st new_calls,
            opened new_calls = 0%nat → closed new_calls = 0%nat →
            balanced (commit (withView st new_calls c))) as Hcommit.
  { intros st new_calls Ho Hcl. apply commit_balanced.
    unfold balanced in *. simpl. rewrite opened_app, closed_app. lia. }
  destruct e; simpl.
  - destruct (authListener c) as [cl|]; [|done].
    destruct user; simpl; apply Hcommit; try done;
      destruct (initialAuthToken cl) as [token|];
      try destruct (truthy_string token); done.
  - destruct (authListener c); [|done]. by apply Hcommit.
  - destruct (subscription c); [|done]. by apply Hcommit.
  - destruct (subscription c); [|done]. by apply Hcommit.
  - unfold balanced in *. simpl. rewrite !opened_app, !closed_app, Hc.
    destruct (authListener c), (subscription c); simpl;
      unfold opened, closed; simpl; lia.
Qed.

Lemma run_balanced g events : balanced (run g events).
Proof.
  induction events as [|e events IH] using rev_ind.
  - unfold run, mount. simpl.
    destruct (initEffect g initialState) as [st [cl|]];
      by apply commit_balanced.
  - rewrite run_snoc. by apply step_balanced.
Qed.

(** C4: with a configuration that initializes and an auth listener that
    reports an already signed-in user, the component makes exactly two
    calls: it registers the auth listener and then opens one snapshot
    listener, on [sensorReadings] ordered by [timestamp] descending with
    limit 10.  Along every event sequence at most one listener is open at a
    time, every listener opened uses that query, and none is opened before
    an auth event has delivered a truthy identity. *)
Theorem activation_opens_one_subscription g firestoreDb fbAuth u :
  initAttempt g = Returned (Some (firestoreDb, fbAuth)) →
  truthy_string (uid u) = true →
  calls (run g [EvAuthState (Some u)])
  = [call_onAuthStateChanged fbAuth; call_onSnapshot (sensorQuery firestoreDb)]
  ∧ subscription (run g [EvAuthState (Some u)]) = Some (sensorQuery firestoreDb)
  ∧ sensorQuery firestoreDb
    = query (collection firestoreDb "sensorReadings")
            [orderBy "timestamp" desc; limit 10]
  ∧ ∀ events,
      opened (calls (run g events))
      = (closed (calls (run g events))
         + length (openCalls (subscription (run g events))))%nat
      ∧ ∀ q, call_onSnapshot q ∈ calls (run g events) →
          q = sensorQuery firestoreDb
          ∧ ∃ before u' after,
              events = before ++ EvAuthState (Some u') :: after
              ∧ truthy_string (uid u') = true
              ∧ ∀ q', call_onSnapshot q' ∉ calls (run g before).
Proof.
  intros Hinit Hu.
  assert (mount g
          = {| view := setAuth (Some fbAuth) (setDb (Some firestoreDb) initialState);
               authListener :=
                 Some {| firebaseAuth := fbAuth;
                         initialAuthToken := __initial_auth_token g |};
               dataDeps := (Some firestoreDb, None);
               subscription := None;
               calls := [call_onAuthStateChanged fbAuth] |}) as Hmount.
  { unfold mount, initEffect. by rewrite Hinit. }
  assert (run g [EvAuthState (Some u)]
          = {| view :=
                 setError None
                   (setIsLoading false
                      (setUserId (Some (uid u))
                         (setAuth (Some fbAuth)
                            (setDb (Some firestoreDb) initialState))));
               authListener :=
                 Some {| firebaseAuth := fbAuth;
                         initialAuthToken := __initial_auth_token g |};
               dataDeps := (Some firestoreDb, Some (uid u));
               subscription := Some (sensorQuery firestoreDb);
               calls := [call_onAuthStateChanged fbAuth;
                         call_onSnapshot (sensorQuery firestoreDb)] |})
    as Hrun.
  { unfold run. simpl. rewrite Hmount. simpl. unfold commit. simpl.
    rewrite decide_False by (intros [= Hd]; discriminate).
    unfold dataEffect. simpl. by rewrite Hu. }
  split; [by rewrite Hrun|]. split; [by rewrite Hrun|]. split; [done|].
  - intros events. split; [apply run_balanced|]. intros q Hq. split.
    + destruct (run_opened_canonical _ _ _ Hq) as (fs & Hdb & ->).
      rewrite run_db, Hmount in Hdb. simpl in Hdb. congruence.
    + destruct (first_resolution events)
        as [Hno|(before & u' & after & -> & Hu' & Hno)].
      * by destruct (proj2 (run_noResolution g _ Hno) _ Hq).
      * exists before, u', after. split; [done|]. split; [done|].
        apply (run_noResolution g _ Hno).
Qed.

(** ** Rendering *)

Lemma truthy_string_cons a s : truthy_string (String a s) = true.
Proof. unfold truthy_string. by rewrite decide_False. Qed.

Lemma commit_error w :
  error (view (commit w)) = error (view w) ∨ error (view (commit w)) = None.
Proof.
  destruct (commit_view_cases w) as [->|[(_ & -> & _)|(_ & -> & _)]]; auto.
Qed.

Lemma commit_error_truthy w :
  error_truthy (view w) → error_truthy (view (commit w)).
Proof.
  unfold error_truthy. intros Hw m.
  destruct (commit_error w) as [->| ->]; [auto|done].
Qed.

Lemma step_error_truthy c e :
  error_truthy (view c) → error_truthy (view (step c e)).
Proof.
  intros Hc. destruct e; simpl.
  - destruct (authListener c); [|done].
    destruct user; simpl; by apply commit_error_truthy.
  - destruct (authListener c); [|done]. apply commit_error_truthy.
    intros m [= <-]. apply truthy_string_cons.
  - destruct (subscription c); [|done]. apply commit_error_truthy.
    unfold error_truthy. simpl.
    by destruct (deliverSnapshot_frame snapshot (view c)) as (_ & _ & _ & ->).
  - destruct (subscription c); [|done]. apply commit_error_truthy.
    intros m [= <-]. apply truthy_string_cons.
  - done.
Qed.

Lemma run_error_truthy g events : error_truthy (view (run g events)).
Proof.
  induction events as [|e events IH] using rev_ind.
  - unfold run, mount, initEffect. simpl.
    destruct (initAttempt g) as [[[fs fa]|]|msg];
      apply commit_error_truthy; intros m [= <-]; apply truthy_string_cons.
  - rewrite run_snoc. by apply step_error_truthy.
Qed.

(** C7, as the code has it: on every reachable state the screen is the
    loading indicator while [isLoading]; otherwise the full-screen error
    panel whenever [error] is set, whether or not a snapshot was processed
    before; otherwise the dashboard, built from the current [latestReading]
    and [sensorReadings]. *)
Theorem render_modes g events :
  render (view (run g events))
  = if isLoading (view (run g events)) then LoadingScreen
    else
      match error (view (run g events)) with
      | Some message => ErrorScreen message (shownUser (view (run g events)))
      | None =>
          DashboardScreen (shownUser (view (run g events)))
            (viewReading <$> latestReading (view (run g events)))
            (viewReading <$> sensorReadings (view (run g events)))
      end.
Proof.
  pose proof (run_error_truthy g events) as Herr.
  unfold render. destruct (isLoading _); [done|].
  destruct (error _) as [m|] eqn:Hm; [|done].
  by rewrite (Herr m).
Qed.

(** ** Retention *)

Lemma commit_subscription w q :
  (∀ q', subscription w = Some q' → ∃ fs, q' = sensorQuery fs) →
  subscription (commit w) = Some q → ∃ fs, q = sensorQuery fs.
Proof.
  intros Hw.
  destruct (commit_view_cases w)
    as [->|[(_ & _ & -> & _)|(_ & _ & fs & _ & _ & -> & _)]];
    [by auto|done|].
  intros [= <-]. by exists fs.
Qed.

Lemma step_subscription c e q :
  (∀ q', subscription c = Some q' → ∃ fs, q' = sensorQuery fs) →
  subscription (step c e) = Some q → ∃ fs, q = sensorQuery fs.
Proof.
  intros Hc. destruct e; simpl.
  - destruct (authListener c); [|by auto].
    destruct user; simpl; by apply commit_subscription.
  - destruct (authListener c); [|by auto]. by apply commit_subscription.
  - destruct (subscription c) eqn:Hs; [|congruence].
    apply commit_subscription. simpl. by rewrite Hs.
  - destruct (subscription c) eqn:Hs; [|congruence].
    apply commit_subscription. simpl. by rewrite Hs.
  - done.
Qed.

Lemma run_subscription g events q :
  subscription (run g events) = Some q → ∃ fs, q = sensorQuery fs.
Proof.
  revert q. induction events as [|e events IH] using rev_ind; intros q.
  - unfold run, mount. simpl. destruct (initEffect g initialState).
    by apply commit_subscription.
  - rewrite run_snoc. by apply step_subscription.
Qed.

(** The callback keeps every record it is handed, in the delivered order;
    the query of the live listener carries [limit(10)]. *)
Lemma snapshot_kept_whole g events q snapshot :
  subscription (run g events) = Some q →
  forallb timestamp_ok snapshot = true →
  length (sensorReadings (view (step (run g events) (EvSnapshot snapshot))))
  = length snapshot
  ∧ Forall2 (λ d r, materialize d = Returned r) snapshot
      (sensorReadings (view (step (run g events) (EvSnapshot snapshot))))
  ∧ q_constraints q = [orderBy "timestamp" desc; limit 10].
Proof.
  intros Hq Hok.
  destruct (forEach_push_total snapshot [] Hok) as (rs & Hrs & HF).
  simpl in Hrs.
  assert (sensorReadings (view (step (run g events) (EvSnapshot snapshot)))
          = rs) as ->.
  { simpl. rewrite Hq, commit_sensorReadings. simpl.
    by rewrite (deliverSnapshot_Returned _ _ _ Hrs). }
  split; [symmetry; by eapply Forall2_length|]. split; [done|].
  by destruct (run_subscription _ _ _ Hq) as [fs ->].
Qed.

Lemma forallb_take {A} (f : A → bool) n (l : list A) :
  forallb f l = true → forallb f (take n l) = true.
Proof.
  revert n. induction l as [|x l IH]; intros [|n]; simpl; try done.
  intros [Hx Hl]%andb_prop. rewrite Hx. simpl. by apply IH.
Qed.

(** In a newest-first sequence no later record is newer than an earlier
    one. *)
Lemma descending_head d l :
  descending (d :: l) = true →
  ∀ j b, l !! j = Some b → (docSeconds b ≤ docSeconds d)%Z.
Proof.
  revert d. induction l as [|d2 l IH]; intros d Hd j b Hb; [done|].
  simpl in Hd. apply andb_prop in Hd as [Hle Hl].
  apply bool_decide_eq_true in Hle.
  destruct j as [|j]; simpl in Hb.
  - injection Hb as <-. done.
  - pose proof (IH d2 Hl j b Hb). lia.
Qed.

Lemma descending_tail d l : descending (d :: l) = true → descending l = true.
Proof. destruct l; simpl; [done|]. by intros [_ ?]%andb_prop. Qed.

Lemma descending_lookup l : ∀ i j a b,
  descending l = true → (i < j)%nat →
  l !! i = Some a → l !! j = Some b → (docSeconds b ≤ docSeconds a)%Z.
Proof.
  induction l as [|d l IH]; intros i j a b Hd Hij Ha Hb; [done|].
  destruct i as [|i]; simpl in Ha.
  - injection Ha as <-. destruct j as [|j]; [lia|].
    by apply (descending_head _ _ Hd j).
  - destruct j as [|j]; [lia|]. simpl in Hb.
    apply (IH i j); [by eapply descending_tail|lia|done|done].
Qed.

(** C8: when the collection holds eleven well-typed records, newest first,
    the result set of the listener's query is its first ten, and after the
    notification the window is exactly the Readings of those ten, in that
    order, none of them older than the record left out.  The bound comes
    from the [limit(10)] of the query; the callback itself keeps every
    delivered sequence whole and in order. *)
Theorem ten_newest_retained g events q records :
  subscription (run g events) = Some q →
  forallb timestamp_ok records = true →
  descending records = true →
  length records = 11%nat →
  resultSet q records = take 10 records
  ∧ Forall2 isReadingOf (take 10 records)
      (sensorReadings
         (view (step (run g events) (EvSnapshot (resultSet q records)))))
  ∧ length
      (sensorReadings
         (view (step (run g events) (EvSnapshot (resultSet q records)))))
    = 10%nat
  ∧ (∀ i d old,
       (i < 10)%nat → records !! i = Some d → records !! 10%nat = Some old →
       (docSeconds old ≤ docSeconds d)%Z)
  ∧ (∀ snapshot,
       forallb timestamp_ok snapshot = true →
       Forall2 isReadingOf snapshot
         (sensorReadings (view (step (run g events) (EvSnapshot snapshot))))).
Proof.
  intros Hq Hok Hd Hlen.
  assert (∀ snapshot,
            forallb timestamp_ok snapshot = true →
            Forall2 isReadingOf snapshot
              (sensorReadings
                 (view (step (run g events) (EvSnapshot snapshot)))))
    as Hwhole.
  { intros snapshot Hs.
    destruct (snapshot_kept_whole g events q snapshot Hq Hs) as (_ & HF & _).
    eapply Forall2_impl; [exact HF|]. apply materialize_isReadingOf. }
  assert (resultSet q records = take 10 records) as ->.
  { destruct (run_subscription _ _ _ Hq) as [fs ->]. reflexivity. }
  pose proof (Hwhole (take 10 records) (forallb_take _ _ _ Hok)) as HF.
  split; [done|]. split; [done|]. split; [|split; [|done]].
  - apply Forall2_length in HF. rewrite <- HF, length_take. lia.
  - intros i d old Hi Hdi Hold.
    by apply (descending_lookup records i 10 d old).
Qed.

(** * Further properties of the component *)

(** ** The materialized record *)

(** X1: a materialized record carries every data field other than [id] and
    [timestamp] unchanged (an absent field stays absent), and its
    [timestamp] is the converted [Date] when the data holds a [Timestamp]
    and null in every other case that does not throw. *)
Theorem materialize_fields doc r :
  materialize doc = Returned r →
  (∀ k, k ≠ "timestamp" → k ≠ "id" → r !! k = doc_data doc !! k)
  ∧ r !! "timestamp"
    = Some match doc_data doc !! "timestamp" with
           | Some (JTimestamp t) => JDate (toDate t)
           | _ => JNull
           end.
Proof.
  unfold materialize, convertTimestamp. intros Hm. split.
  - intros k Hts Hid.
    destruct (doc_data doc !! "timestamp") as [v|];
      [destruct (truthy v); [destruct v|]|]; simplify_eq/=;
      rewrite lookup_insert_ne by done;
      by rewrite lookup_union_l by by rewrite lookup_singleton_ne.
  - destruct (doc_data doc !! "timestamp") as [v|] eqn:Hv;
      [destruct (truthy v) eqn:Ht; [destruct v|]|]; simplify_eq/=;
      rewrite lookup_insert_eq; try done.
    by destruct v.
Qed.

(** X2: the [id] of a materialized record is the [id] field of the data
    when the data has one, and the document id only otherwise. *)
Theorem materialize_id_field doc r :
  materialize doc = Returned r →
  r !! "id" = Some (default (JStr (doc_id doc)) (doc_data doc !! "id")).
Proof.
  unfold materialize. intros Hm.
  destruct (convertTimestamp _) as [ts|]; simplify_eq/=.
  rewrite lookup_insert_ne by done. rewrite lookup_union.
  rewrite lookup_singleton_eq. by destruct (doc_data doc !! "id").
Qed.

(** ** When the snapshot callback throws *)

Lemma materialize_throws doc :
  throwsOn doc = true
  ↔ materialize doc = Thrown "data.timestamp.toDate is not a function".
Proof.
  unfold throwsOn, materialize, convertTimestamp.
  destruct (doc_data doc !! "timestamp") as [v|]; [|done].
  destruct v; simpl; repeat case_match; split; intros; simplify_eq/=; done.
Qed.

Lemma materialize_returns doc :
  throwsOn doc = false ↔ ∃ r, materialize doc = Returned r.
Proof.
  split.
  - unfold throwsOn, materialize, convertTimestamp.
    destruct (doc_data doc !! "timestamp") as [v|]; [|by eauto].
    destruct v; simpl; repeat case_match; intros; simplify_eq/=; eauto.
  - intros [r Hr]. destruct (throwsOn doc) eqn:Ht; [|done].
    apply materialize_throws in Ht. congruence.
Qed.

Lemma forEach_push_throws docs : ∀ acc,
  existsb throwsOn docs = true
  ↔ forEach_push docs acc = Thrown "data.timestamp.toDate is not a function".
Proof.
  induction docs as [|d docs IH]; intros acc; simpl; [done|].
  destruct (throwsOn d) eqn:Hd; simpl.
  - apply materialize_throws in Hd. by rewrite Hd.
  - apply materialize_returns in Hd as [r Hr]. rewrite Hr. simpl. apply IH.
Qed.

Lemma forEach_push_returns docs : ∀ acc,
  existsb throwsOn docs = false → ∃ rs, forEach_push docs acc = Returned rs.
Proof.
  induction docs as [|d docs IH]; intros acc; simpl; [by eauto|].
  intros [Hd Hds]%orb_false_iff.
  apply materialize_returns in Hd as [r Hr]. rewrite Hr. simpl. by apply IH.
Qed.

(** X3: the snapshot callback throws exactly when some record of the
    snapshot has a truthy [timestamp] that is not a [Timestamp]; the error
    is always the same [TypeError].  A falsy [timestamp] (0, false, the
    empty string, null) never makes it throw. *)
Theorem onSnapshotNext_throws snapshot st :
  (existsb throwsOn snapshot = true
   ↔ onSnapshotNext snapshot st
     = Thrown "data.timestamp.toDate is not a function")
  ∧ (existsb throwsOn snapshot = false
     ↔ ∃ st', onSnapshotNext snapshot st = Returned st').
Proof.
  assert (existsb throwsOn snapshot = true
          ↔ onSnapshotNext snapshot st
            = Thrown "data.timestamp.toDate is not a function") as Hthrow.
  { rewrite (forEach_push_throws snapshot []). unfold onSnapshotNext.
    destruct (forEach_push snapshot []); simpl; split; congruence. }
  split; [done|]. split.
  - intros [rs Hrs]%(forEach_push_returns snapshot []).
    unfold onSnapshotNext. rewrite Hrs. simpl. by eauto.
  - intros [st' Hst']. destruct (existsb throwsOn snapshot); [|done].
    rewrite (proj1 Hthrow eq_refl) in Hst'. done.
Qed.

(** X4: a snapshot with one such record is dropped whole: on a reachable
    component the event changes no cell, no subscription and no call, even
    when the records before the offending one were well-typed. *)
Theorem ill_typed_snapshot_is_dropped g events snapshot :
  existsb throwsOn snapshot = true →
  step (run g events) (EvSnapshot snapshot) = run g events.
Proof.
  intros Hex. pose proof (run_in_sync g events) as Hsync.
  destruct (subscription (run g events)) as [q|] eqn:Hq.
  - rewrite (step_snapshot_in_sync _ _ _ Hq Hsync).
    apply (forEach_push_throws snapshot []) in Hex.
    rewrite (deliverSnapshot_Thrown _ _ _ Hex). apply withView_id.
  - simpl. by rewrite Hq.
Qed.

(** ** Start-up *)

Lemma run_app g events more :
  run g (events ++ more) = foldl step (run g events) more.
Proof. unfold run. by rewrite foldl_app. Qed.

(** The mounted component when the initialization went through. *)
Lemma mount_ready g firestoreDb fbAuth :
  initAttempt g = Returned (Some (firestoreDb, fbAuth)) →
  mount g
  = {| view := setAuth (Some fbAuth) (setDb (Some firestoreDb) initialState);
       authListener :=
         Some {| firebaseAuth := fbAuth;
                 initialAuthToken := __initial_auth_token g |};
       dataDeps := (Some firestoreDb, None);
       subscription := None;
       calls := [call_onAuthStateChanged fbAuth] |}.
Proof. intros Hinit. unfold mount, initEffect. by rewrite Hinit. Qed.

Lemma mount_failed g message :
  initAttempt g = Thrown message →
  mount g
  = {| view :=
         setIsLoading false
           (setError (Some ("Failed to initialize Firebase: " +:+ message))
              initialState);
       authListener := None;
       dataDeps := (None, None);
       subscription := None;
       calls := [] |}.
Proof. intros Hinit. unfold mount, initEffect. by rewrite Hinit. Qed.

(** X5: when anything in the initialization throws (the configuration text
    is not valid JSON, or [initializeApp], [getFirestore] or [getAuth]
    fails), the component shows the initialization-failure message with the
    thrown message appended, is not loading, holds no handle, registers no
    listener and makes no call, now and after every later event. *)
Theorem initialization_failure_is_terminal g message events :
  initAttempt g = Thrown message →
  view (run g events)
  = {| db := None; auth := None; userId := None; latestReading := None;
       sensorReadings := [];
       error := Some ("Failed to initialize Firebase: " +:+ message);
       isLoading := false |}
  ∧ authListener (run g events) = None
  ∧ subscription (run g events) = None
  ∧ calls (run g events) = [].
Proof.
  intros Hinit%mount_failed.
  induction events as [|e events IH] using rev_ind.
  - unfold run. simpl. by rewrite Hinit.
  - rewrite run_snoc. destruct IH as (Hv & Ha & Hs & Hc).
    by rewrite (step_dead _ _ Ha Hs).
Qed.

(** The three ways the initialization can throw. *)
Lemma initAttempt_Thrown g message :
  initAttempt g = Thrown message ↔
  (∃ text, __firebase_config g = Some text ∧ JSON_parse text = Thrown message)
  ∨ ∃ config,
      match __firebase_config g with
      | Some text => JSON_parse text
      | None => Returned (JObject ∅)
      end = Returned config
      ∧ truthy config = true
      ∧ Object_keys_length config ≠ 0%nat
      ∧ (initializeApp config = Thrown message
         ∨ ∃ app, initializeApp config = Returned app
                  ∧ (getFirestore app = Thrown message
                     ∨ ∃ fs, getFirestore app = Returned fs
                             ∧ getAuth app = Thrown message)).
Proof.
  unfold initAttempt.
  destruct (__firebase_config g) as [text|]; simpl.
  - destruct (JSON_parse text) as [config|msg] eqn:Hp; simpl.
    + destruct (truthy config) eqn:Ht; simpl.
      * case_bool_decide as Hk; simpl.
        { split; [done|]. intros [(? & [= <-] & ?)|(? & [= <-] & _ & ? & _)];
            congruence. }
        destruct (initializeApp config) as [app|m1] eqn:Hi; simpl.
        { destruct (getFirestore app) as [fs|m2] eqn:Hf; simpl.
          - destruct (getAuth app) as [fa|m3] eqn:Ha; simpl.
            + split; [done|].
              intros [(? & [= <-] & ?)|(? & [= <-] & _ & _ & Hc)];
                [congruence|].
              destruct Hc as [?|(? & ? & [?|(? & ? & ?)])]; congruence.
            + split.
              * intros [= <-]. right. exists config.
                repeat (split; [done|]). right. exists app. split; [done|].
                right. by exists fs.
              * intros [(? & [= <-] & ?)|(? & [= <-] & _ & _ & Hc)];
                  [congruence|].
                destruct Hc as [?|(? & ? & [?|(? & ? & ?)])]; congruence.
          - split.
            + intros [= <-]. right. exists config.
              repeat (split; [done|]). right. exists app. split; [done|].
              by left.
            + intros [(? & [= <-] & ?)|(? & [= <-] & _ & _ & Hc)];
                [congruence|].
              destruct Hc as [?|(? & ? & [?|(? & ? & ?)])]; congruence. }
        split.
        { intros [= <-]. right. exists config. repeat (split; [done|]).
          by left. }
        intros [(? & [= <-] & ?)|(? & [= <-] & _ & _ & Hc)]; [congruence|].
        destruct Hc as [?|(? & ? & _)]; congruence.
      * split; [done|].
        intros [(? & [= <-] & ?)|(? & [= <-] & ? & _)]; congruence.
    + split.
      * intros [= <-]. left. by exists text.
      * intros [(? & [= <-] & ?)|(? & ? & _)]; congruence.
  - split; [done|]. intros [(? & ? & _)|(? & [= <-] & _ & Hk & _)]; [done|].
    by destruct Hk.
Qed.

(** ** The loading indicator *)

Lemma commit_no_identity w :
  userId (view w) = None → subscription w = None →
  subscription (commit w) = None ∧ error (view (commit w)) = error (view w).
Proof.
  intros Hu Hs.
  destruct (commit_view_cases w)
    as [->|[(_ & -> & -> & _)|(_ & _ & fs & _ & Ht & _)]]; [done|done|].
  by rewrite Hu in Ht.
Qed.

(** X6: after a successful initialization the component stays on the
    loading screen, with no error, no identity and no subscription, for as
    long as the only events are auth events without a user (each of which
    starts a sign-in), stray snapshot events and unmounting: only an auth
    event with a user or a sign-in rejection ends the loading state. *)
Theorem loading_until_identity g firestoreDb fbAuth events :
  initAttempt g = Returned (Some (firestoreDb, fbAuth)) →
  forallb quiet events = true →
  isLoading (view (run g events)) = true
  ∧ error (view (run g events)) = None
  ∧ userId (view (run g events)) = None
  ∧ subscription (run g events) = None
  ∧ render (view (run g events)) = LoadingScreen.
Proof.
  intros Hinit%mount_ready.
  assert (∀ c, isLoading (view c) = true → render (view c) = LoadingScreen)
    as Hrender.
  { intros c Hl. unfold render. by rewrite Hl. }
  induction events as [|e events IH] using rev_ind; intros Hq.
  - unfold run. simpl. by rewrite Hinit.
  - rewrite forallb_app in Hq. apply andb_prop in Hq as [Hq He].
    simpl in He. rewrite andb_true_r in He.
    destruct (IH Hq) as (Hl & Herr & Hu & Hs & _). rewrite run_snoc.
    set (c := run g events) in *.
    assert (isLoading (view (step c e)) = true
            ∧ error (view (step c e)) = None
            ∧ userId (view (step c e)) = None
            ∧ subscription (step c e) = None) as (? & ? & ? & ?);
      [|repeat (split; [done|]); by apply Hrender].
    destruct e as [[u|]| | | |]; try done; simpl.
    + destruct (authListener c) as [cl|]; [|done]. simpl.
      rewrite commit_isLoading, commit_userId. simpl.
      destruct (commit_no_identity
                  (withView (view c)
                     [match initialAuthToken cl with
                      | Some token =>
                          if truthy_string token
                          then call_signInWithCustomToken (firebaseAuth cl) token
                          else call_signInAnonymously (firebaseAuth cl)
                      | None => call_signInAnonymously (firebaseAuth cl)
                      end] c) Hu Hs) as [-> ->].
      done.
    + by rewrite Hs.
    + by rewrite Hs.
Qed.

Lemma step_isLoading c e :
  isLoading (view c) = false → isLoading (view (step c e)) = false.
Proof.
  intros Hl. destruct e; simpl.
  - destruct (authListener c); [|done].
    destruct user; simpl; by rewrite commit_isLoading.
  - destruct (authListener c); [|done]. by rewrite commit_isLoading.
  - destruct (subscription c); [|done]. rewrite commit_isLoading. simpl.
    destruct (forEach_push snapshot []) as [rs|msg] eqn:Hrs.
    + by rewrite (deliverSnapshot_Returned _ _ _ Hrs).
    + by rewrite (deliverSnapshot_Thrown _ _ _ Hrs).
  - destruct (subscription c); [|done]. by rewrite commit_isLoading.
  - done.
Qed.

(** X7: the loading indicator never comes back: once [isLoading] is false
    it is false after every further sequence of events, including an
    identity change that re-opens the subscription. *)
Theorem loading_never_returns g events more :
  isLoading (view (run g events)) = false →
  isLoading (view (run g (events ++ more))) = false.
Proof.
  intros Hl. induction more as [|e more IH] using rev_ind.
  - by rewrite app_nil_r.
  - rewrite app_assoc, run_snoc. by apply step_isLoading.
Qed.

(** ** Registering and releasing the listeners *)

Lemma registered_app ks1 ks2 :
  registered (ks1 ++ ks2) = (registered ks1 + registered ks2)%nat.
Proof. unfold registered. by rewrite List.filter_app, length_app. Qed.

Lemma released_app ks1 ks2 :
  released (ks1 ++ ks2) = (released ks1 + released ks2)%nat.
Proof. unfold released. by rewrite List.filter_app, length_app. Qed.

(** A commit touches no auth listener. *)
Lemma commit_auth_calls w :
  registered (calls (commit w)) = registered (calls w)
  ∧ released (calls (commit w)) = released (calls w).
Proof.
  unfold commit. destruct (decide _); [done|].
  destruct (dataEffect (view w)) as [st sub]. simpl.
  rewrite !registered_app, !released_app.
  destruct (subscription w), sub; simpl; unfold registered, released; simpl;
    lia.
Qed.

Lemma step_auth_calls c e :
  registered (calls (step c e)) = registered (calls c)
  ∧ (released (calls (step c e)) + listening (step c e)
     = released (calls c) + listening c)%nat.
Proof.
  assert (∀ st new_calls,
            registered new_calls = 0%nat → released new_calls = 0%nat →
            registered (calls (commit (withView st new_calls c)))
            = registered (calls c)
            ∧ (released (calls (commit (withView st new_calls c)))
               + listening (commit (withView st new_calls c))
               = released (calls c) + listening c)%nat) as Hcommit.
  { intros st new_calls Hr Hl.
    destruct (commit_auth_calls (withView st new_calls c)) as [-> ->].
    unfold listening. rewrite commit_authListener. simpl.
    rewrite registered_app, released_app. lia. }
  destruct e; simpl.
  - destruct (authListener c) as [cl|] eqn:Hcl; [|done].
    destruct user; simpl; apply Hcommit; try done;
      destruct (initialAuthToken cl) as [token|];
      try destruct (truthy_string token); done.
  - destruct (authListener c); [|done]. by apply Hcommit.
  - destruct (subscription c); [|done]. by apply Hcommit.
  - destruct (subscription c); [|done]. by apply Hcommit.
  - unfold listening. simpl. rewrite !registered_app, !released_app.
    destruct (authListener c), (subscription c); simpl;
      unfold registered, released; simpl; lia.
Qed.

Lemma mount_auth_calls g :
  registered (calls (mount g))
  = match initAttempt g with
    | Returned (Some _) => 1%nat
    | _ => 0%nat
    end
  ∧ released (calls (mount g)) = 0%nat
  ∧ listening (mount g) = registered (calls (mount g)).
Proof.
  unfold mount, initEffect, listening.
  destruct (initAttempt g) as [[[fs fa]|]|msg];
    match goal with |- context [commit ?w] => set (w0 := w) end;
    destruct (commit_auth_calls w0) as [-> ->];
    rewrite commit_authListener; done.
Qed.

Lemma run_auth_calls g events :
  registered (calls (run g events))
  = match initAttempt g with
    | Returned (Some _) => 1%nat
    | _ => 0%nat
    end
  ∧ (released (calls (run g events)) + listening (run g events)
     = registered (calls (run g events)))%nat.
Proof.
  induction events as [|e events IH] using rev_ind.
  - unfold run. simpl. destruct (mount_auth_calls g) as (-> & -> & ->). done.
  - rewrite run_snoc. destruct IH as [IH1 IH2].
    destruct (step_auth_calls (run g events) e) as [Hr Hl].
    rewrite Hr, Hl. by split.
Qed.

(** X8: the auth listener is registered exactly once when the
    initialization goes through and never otherwise, whatever events
    follow; it is released at most once, and released together with
    still-registered always equals registered. *)
Theorem auth_listener_registered_once g events :
  registered (calls (run g events))
  = match initAttempt g with
    | Returned (Some _) => 1%nat
    | _ => 0%nat
    end
  ∧ (released (calls (run g events)) + listening (run g events)
     = registered (calls (run g events)))%nat
  ∧ (released (calls (run g events)) ≤ 1)%nat.
Proof.
  destruct (run_auth_calls g events) as [Hr Hl].
  split; [done|]. split; [done|].
  rewrite Hr in Hl. destruct (initAttempt g) as [[?|]|]; lia.
Qed.

(** X9: unmounting releases everything: afterwards every snapshot listener
    that was opened has been closed and the auth listener, if it was
    registered, has been released; no callback is registered any more, so
    every later event leaves the component exactly as the unmount left
    it. *)
Theorem unmount_releases g events later :
  run g (events ++ EvUnmount :: later) = run g (events ++ [EvUnmount])
  ∧ opened (calls (run g (events ++ [EvUnmount])))
    = closed (calls (run g (events ++ [EvUnmount])))
  ∧ registered (calls (run g (events ++ [EvUnmount])))
    = released (calls (run g (events ++ [EvUnmount])))
  ∧ authListener (run g (events ++ [EvUnmount])) = None
  ∧ subscription (run g (events ++ [EvUnmount])) = None.
Proof.
  assert (authListener (run g (events ++ [EvUnmount])) = None) as Ha
    by by rewrite run_snoc.
  assert (subscription (run g (events ++ [EvUnmount])) = None) as Hs
    by by rewrite run_snoc.
  split; [|split; [|split; [|done]]].
  - replace (events ++ EvUnmount :: later)
      with ((events ++ [EvUnmount]) ++ later) by by rewrite <- app_assoc.
    rewrite run_app.
    induction later as [|e later IH] using rev_ind; [done|].
    rewrite foldl_snoc, IH. by apply step_dead.
  - pose proof (run_balanced g (events ++ [EvUnmount])) as Hb.
    unfold balanced in Hb. rewrite Hs in Hb. simpl in Hb. lia.
  - destruct (run_auth_calls g (events ++ [EvUnmount])) as [_ Hl].
    unfold listening in Hl. rewrite Ha in Hl. lia.
Qed.

(** ** Identity changes *)

Lemma step_auth c e : auth (view (step c e)) = auth (view c).
Proof.
  destruct e; simpl.
  - destruct (authListener c); [|done].
    destruct user; simpl; by rewrite commit_auth.
  - destruct (authListener c); [|done]. by rewrite commit_auth.
  - destruct (subscription c); [|done]. rewrite commit_auth. simpl.
    by destruct (deliverSnapshot_frame snapshot (view c)) as (_ & -> & _).
  - destruct (subscription c); [|done]. by rewrite commit_auth.
  - done.
Qed.

(** The registered auth callback is the one of the mount, until it is
    released. *)
Lemma step_authListener c e cl :
  authListener (step c e) = Some cl → authListener c = Some cl.
Proof.
  destruct e; simpl.
  - destruct (authListener c) as [cl'|] eqn:Hcl; [|congruence].
    destruct (onAuthStateChangedNext cl' user (view c)).
    rewrite commit_authListener. simpl. congruence.
  - destruct (authListener c) eqn:Hcl; [|congruence].
    rewrite commit_authListener. simpl. congruence.
  - destruct (subscription c); [|done]. by rewrite commit_authListener.
  - destruct (subscription c); [|done]. by rewrite commit_authListener.
  - done.
Qed.

Lemma run_authListener g events cl :
  authListener (run g events) = Some cl → authListener (mount g) = Some cl.
Proof.
  induction events as [|e events IH] using rev_ind; [done|].
  rewrite run_snoc. intros Hcl%step_authListener. by apply IH.
Qed.

Lemma setUserId_same st :
  setUserId (userId st) st = st.
Proof. by destruct st. Qed.

(** X10: an auth event that reports the identity the component already
    holds only clears [isLoading]: no listener is closed or opened, no call
    is made, and the error and the readings stay. *)
Theorem repeated_identity_is_ignored g events cl u :
  authListener (run g events) = Some cl →
  userId (view (run g events)) = Some (uid u) →
  view (step (run g events) (EvAuthState (Some u)))
  = setIsLoading false (view (run g events))
  ∧ calls (step (run g events) (EvAuthState (Some u))) = calls (run g events)
  ∧ subscription (step (run g events) (EvAuthState (Some u)))
    = subscription (run g events).
Proof.
  intros Hcl Hu. pose proof (run_in_sync g events) as Hsync.
  set (c := run g events) in *. simpl. rewrite Hcl. simpl.
  rewrite <- Hu, setUserId_same.
  rewrite commit_in_sync by done. simpl. by rewrite app_nil_r.
Qed.

(** X11: an auth event with a new truthy identity re-runs the data effect:
    the listener held so far, if any, is closed first and then exactly one
    new listener is opened with the same query; the error is cleared (so a
    failed sign-in is recovered by a later successful one), while the
    readings of the previous identity stay in place until the next
    snapshot. *)
Theorem identity_change_resubscribes g firestoreDb fbAuth events cl u :
  initAttempt g = Returned (Some (firestoreDb, fbAuth)) →
  authListener (run g events) = Some cl →
  userId (view (run g events)) ≠ Some (uid u) →
  truthy_string (uid u) = true →
  calls (step (run g events) (EvAuthState (Some u)))
  = calls (run g events) ++ cleanupCalls (subscription (run g events))
    ++ [call_onSnapshot (sensorQuery firestoreDb)]
  ∧ subscription (step (run g events) (EvAuthState (Some u)))
    = Some (sensorQuery firestoreDb)
  ∧ view (step (run g events) (EvAuthState (Some u)))
    = setError None
        (setIsLoading false (setUserId (Some (uid u)) (view (run g events)))).
Proof.
  intros Hinit Hcl Hne Hu.
  pose proof (run_in_sync g events) as Hsync.
  pose proof (run_db g events) as Hdb.
  rewrite (mount_ready _ _ _ Hinit) in Hdb. simpl in Hdb.
  set (c := run g events) in *. simpl. rewrite Hcl. simpl.
  unfold commit. simpl. rewrite Hsync, Hdb.
  rewrite decide_False by congruence.
  unfold dataEffect. simpl. rewrite Hdb, Hu. simpl.
  by rewrite app_nil_r.
Qed.

(** ** Signing in *)

(** X12: a rejected sign-in puts the authentication-failure message, with
    the rejection's message appended, into [error] and clears [isLoading],
    so the error panel is rendered; it makes no call and touches neither
    the identity nor the subscription nor the readings. *)
Theorem sign_in_rejection_is_shown g events cl message :
  authListener (run g events) = Some cl →
  view (step (run g events) (EvSignInRejected message))
  = setIsLoading false
      (setError (Some ("Authentication failed: " +:+ message))
         (view (run g events)))
  ∧ render (view (step (run g events) (EvSignInRejected message)))
    = ErrorScreen ("Authentication failed: " +:+ message)
        (shownUser (view (run g events)))
  ∧ calls (step (run g events) (EvSignInRejected message))
    = calls (run g events)
  ∧ subscription (step (run g events) (EvSignInRejected message))
    = subscription (run g events).
Proof.
  intros Hcl. pose proof (run_in_sync g events) as Hsync.
  set (c := run g events) in *. simpl. rewrite Hcl.
  rewrite commit_in_sync by done. simpl. rewrite app_nil_r.
  repeat split.
Qed.

(** X13: an auth event without a user changes no cell and makes exactly
    one call, a sign-in on the Auth handle of the mount: with the custom
    token when [__initial_auth_token] is a non-empty string, anonymously
    when it is undefined or the empty string. *)
Theorem signed_out_starts_sign_in g firestoreDb fbAuth events cl :
  initAttempt g = Returned (Some (firestoreDb, fbAuth)) →
  authListener (run g events) = Some cl →
  view (step (run g events) (EvAuthState None)) = view (run g events)
  ∧ subscription (step (run g events) (EvAuthState None))
    = subscription (run g events)
  ∧ calls (step (run g events) (EvAuthState None))
    = calls (run g events)
      ++ [match __initial_auth_token g with
          | Some token =>
              if truthy_string token
              then call_signInWithCustomToken fbAuth token
              else call_signInAnonymously fbAuth
          | None => call_signInAnonymously fbAuth
          end].
Proof.
  intros Hinit Hcl. pose proof (run_in_sync g events) as Hsync.
  pose proof (run_authListener _ _ _ Hcl) as Hm.
  rewrite (mount_ready _ _ _ Hinit) in Hm. simpl in Hm.
  injection Hm as <-.
  set (c := run g events) in *. simpl. rewrite Hcl. simpl.
  by rewrite commit_in_sync by done.
Qed.

(** ** What the user sees *)

(** X14: once the error panel is on screen, snapshots do not bring the
    dashboard back: after any number of snapshot events, processed or
    dropped, the same panel with the same message is rendered. *)
Theorem error_panel_survives_snapshots g events message more :
  isLoading (view (run g events)) = false →
  error (view (run g events)) = Some message →
  forallb isSnapshot more = true →
  render (view (run g (events ++ more)))
  = ErrorScreen message (shownUser (view (run g events))).
Proof.
  intros Hl Herr Hmore.
  pose proof (run_error_truthy g events message Herr) as Ht.
  assert (isLoading (view (run g (events ++ more))) = false
          ∧ error (view (run g (events ++ more))) = Some message
          ∧ userId (view (run g (events ++ more)))
            = userId (view (run g events))) as (Hl' & Herr' & Hu').
  { induction more as [|e more IH] using rev_ind.
    - by rewrite app_nil_r.
    - rewrite forallb_app in Hmore. apply andb_prop in Hmore as [Hmore He].
      destruct (IH Hmore) as (IHl & IHe & IHu).
      rewrite app_assoc, run_snoc.
      pose proof (run_in_sync g (events ++ more)) as Hsync.
      set (c := run g (events ++ more)) in *.
      split; [by apply step_isLoading|].
      destruct e as [| |snapshot| |]; try done.
      destruct (subscription c) as [q|] eqn:Hq.
      + rewrite (step_snapshot_in_sync _ _ _ Hq Hsync). simpl.
        destruct (deliverSnapshot_frame snapshot (view c))
          as (_ & _ & -> & ->). done.
      + simpl. by rewrite Hq. }
  unfold render, shownUser. by rewrite Hl', Herr', Ht, Hu'.
Qed.

(** X15: as long as every delivered snapshot has at most [n] records, the
    window never holds more than [n]; with the backend honouring
    [limit(10)] the window has at most ten readings in every reachable
    state. *)
Theorem window_bounded g events n :
  snapshotsWithin n events = true →
  (length (sensorReadings (view (run g events))) ≤ n)%nat.
Proof.
  unfold snapshotsWithin.
  induction events as [|e events IH] using rev_ind; intros Hn.
  - unfold run, mount, initEffect. simpl.
    destruct (initAttempt g) as [[[fs fa]|]|msg];
      rewrite commit_sensorReadings; simpl; lia.
  - rewrite forallb_app in Hn. apply andb_prop in Hn as [Hn He].
    simpl in He. rewrite andb_true_r in He. specialize (IH Hn).
    rewrite run_snoc. set (c := run g events) in *.
    destruct e; simpl.
    + destruct (authListener c); [|done].
      destruct user; simpl; by rewrite commit_sensorReadings.
    + destruct (authListener c); [|done]. by rewrite commit_sensorReadings.
    + destruct (subscription c); [|done]. rewrite commit_sensorReadings.
      simpl. destruct (forEach_push snapshot []) as [rs|msg] eqn:Hrs.
      * rewrite (deliverSnapshot_Returned _ _ _ Hrs). simpl.
        apply forEach_push_Returned in Hrs as (rs' & -> & HF).
        apply Forall2_length in HF. simpl. rewrite <- HF.
        by apply bool_decide_eq_true in He.
      * by rewrite (deliverSnapshot_Thrown _ _ _ Hrs).
    + destruct (subscription c); [|done]. by rewrite commit_sensorReadings.
    + done.
Qed.

(** X16: what the dashboard prints for a materialized record is the stored
    temperature and humidity as they are, and for the time either the
    converted [Date] of a stored [Timestamp] or N/A in every other case. *)
Theorem shown_reading doc r :
  materialize doc = Returned r →
  viewReading r
  = {| shown_temperature := doc_data doc !! "temperature";
       shown_humidity := doc_data doc !! "humidity";
       shown_timestamp :=
         match doc_data doc !! "timestamp" with
         | Some (JTimestamp t) => Some (JDate (toDate t))
         | _ => None
         end |}.
Proof.
  unfold materialize, convertTimestamp, viewReading. intros Hm.
  assert (∀ ts k, k ≠ "timestamp" → k ≠ "id" →
            (<["timestamp" := ts]>
               (doc_data doc ∪ {["id" := JStr (doc_id doc)]}) : jsobject) !! k
            = doc_data doc !! k) as Hother.
  { intros ts k Hk1 Hk2. rewrite lookup_insert_ne by done.
    by rewrite lookup_union_l by by rewrite lookup_singleton_ne. }
  destruct (doc_data doc !! "timestamp") as [v|];
    [destruct (truthy v) eqn:Ht; destruct v|]; simplify_eq/=;
    rewrite !Hother by done; rewrite lookup_insert_eq; done.
Qed.

(** X17: the Firestore and Auth handles are created once, by the
    initialization effect, and never replaced or dropped: in every
    reachable state they are the pair the initialization returned, or both
    null when it did not get that far. *)
Theorem handles_created_once g events :
  db (view (run g events))
  = match initAttempt g with
    | Returned (Some (firestoreDb, _)) => Some firestoreDb
    | _ => None
    end
  ∧ auth (view (run g events))
    = match initAttempt g with
      | Returned (Some (_, fbAuth)) => Some fbAuth
      | _ => None
      end.
Proof.
  assert (auth (view (run g events)) = auth (view (mount g))) as ->.
  { induction events as [|e events IH] using rev_ind; [done|].
    by rewrite run_snoc, step_auth. }
  rewrite run_db. unfold mount, initEffect.
  destruct (initAttempt g) as [[[fs fa]|]|msg];
    by rewrite commit_db, commit_auth.
Qed.

(** The component right after a signed-in user was reported. *)
Lemma run_signed_in g firestoreDb fbAuth u :
  initAttempt g = Returned (Some (firestoreDb, fbAuth)) →
  truthy_string (uid u) = true →
  run g [EvAuthState (Some u)]
  = {| view :=
         setError None
           (setIsLoading false
              (setUserId (Some (uid u))
                 (setAuth (Some fbAuth)
                    (setDb (Some firestoreDb) initialState))));
       authListener :=
         Some {| firebaseAuth := fbAuth;
                 initialAuthToken := __initial_auth_token g |};
       dataDeps := (Some firestoreDb, Some (uid u));
       subscription := Some (sensorQuery firestoreDb);
       calls := [call_onAuthStateChanged fbAuth;
                 call_onSnapshot (sensorQuery firestoreDb)] |}.
Proof.
  intros Hinit%mount_ready Hu. unfold run. simpl. rewrite Hinit. simpl.
  unfold commit. simpl.
  rewrite decide_False by (intros [= Hd]; discriminate).
  unfold dataEffect. simpl. by rewrite Hu.
Qed.

(** X18: from start-up to the first data: with a configuration that
    initializes and a signed-in user, the dashboard is rendered with the
    no-data placeholders before any snapshot, and after a first snapshot
    that does not throw it shows the user, the first record as the latest
    reading and one row per record, in snapshot order. *)
Theorem first_snapshot_shows_dashboard g firestoreDb fbAuth u snapshot :
  initAttempt g = Returned (Some (firestoreDb, fbAuth)) →
  truthy_string (uid u) = true →
  existsb throwsOn snapshot = false →
  render (view (run g [EvAuthState (Some u)]))
  = DashboardScreen (Some (uid u)) None []
  ∧ ∃ readings,
      Forall2 (λ d r, materialize d = Returned r) snapshot readings
      ∧ render (view (run g [EvAuthState (Some u); EvSnapshot snapshot]))
        = DashboardScreen (Some (uid u)) (viewReading <$> head readings)
            (viewReading <$> readings).
Proof.
  intros Hinit Hu Hok.
  pose proof (run_signed_in _ _ _ _ Hinit Hu) as Hrun.
  assert (shownUser (view (run g [EvAuthState (Some u)])) = Some (uid u))
    as Hshown.
  { rewrite Hrun. unfold shownUser. simpl. by rewrite Hu. }
  split.
  - unfold render, dashboard. rewrite Hshown. by rewrite Hrun.
  - destruct (forEach_push_returns snapshot [] Hok) as [rs Hrs].
    exists rs. split.
    { apply forEach_push_Returned in Hrs as (rs' & -> & HF). done. }
    replace [EvAuthState (Some u); EvSnapshot snapshot]
      with ([EvAuthState (Some u)] ++ [EvSnapshot snapshot]) by done.
    rewrite run_snoc.
    erewrite step_snapshot_in_sync;
      [|by rewrite Hrun|apply run_in_sync].
    simpl. rewrite (deliverSnapshot_Returned _ _ _ Hrs).
    unfold render, dashboard, shownUser. simpl.
    rewrite Hrun. simpl. rewrite Hu. by destruct rs.
Qed.

Lemma mount_error g :
  error (view (mount g))
  = match initAttempt g with
    | Returned None =>
        Some "Firebase configuration not found. Please ensure __firebase_config is set."
    | Returned (Some _) => None
    | Thrown message => Some ("Failed to initialize Firebase: " +:+ message)
    end.
Proof.
  destruct (initAttempt g) as [[[fs fa]|]|msg] eqn:Hinit.
  - by rewrite (mount_ready _ _ _ Hinit).
  - unfold mount, initEffect. by rewrite Hinit.
  - by rewrite (mount_failed _ _ Hinit).
Qed.

(** The guard of the initialization effect. *)
Lemma initAttempt_None g :
  initAttempt g = Returned None
  ↔ __firebase_config g = None
    ∨ ∃ text config,
        __firebase_config g = Some text
        ∧ JSON_parse text = Returned config
        ∧ (truthy config = false ∨ Object_keys_length config = 0%nat).
Proof.
  unfold initAttempt.
  destruct (__firebase_config g) as [text|]; simpl; [|by split; [left|]].
  destruct (JSON_parse text) as [config|msg] eqn:Hp; simpl.
  - destruct (truthy config) eqn:Ht; simpl.
    + case_bool_decide as Hk; simpl.
      * split; [|done]. intros _. right. exists text, config. by auto.
      * split.
        { destruct (initializeApp config) as [app|]; simpl; [|done].
          destruct (getFirestore app) as [fs|]; simpl; [|done].
          by destruct (getAuth app). }
        intros [?|(? & ? & [= <-] & Hp' & Hc)]; [done|].
        rewrite Hp in Hp'. injection Hp' as <-.
        destruct Hc; congruence.
    + split; [|done]. intros _. right. exists text, config. by auto.
  - split; [done|].
    intros [?|(? & ? & [= <-] & ? & _)]; congruence.
Qed.

(** X19: the configuration-not-found message is shown exactly when the
    configuration global is undefined or its text parses to a value the
    guard rejects: a falsy value (null, false, 0, the empty string) or a
    value without own keys (an empty object or array, any number or
    boolean).  A non-empty string or array passes the guard and is handed
    to [initializeApp]. *)
Theorem configuration_guard g :
  error (view (mount g))
  = Some "Firebase configuration not found. Please ensure __firebase_config is set."
  ↔ __firebase_config g = None
    ∨ ∃ text config,
        __firebase_config g = Some text
        ∧ JSON_parse text = Returned config
        ∧ (truthy config = false ∨ Object_keys_length config = 0%nat).
Proof.
  rewrite <- initAttempt_None, mount_error.
  destruct (initAttempt g) as [[[fs fa]|]|msg]; split; done.
Qed.

(** X20: an empty snapshot leaves the dashboard with the latest-reading
    card of the previous data above an empty table: when no error is set
    and a latest reading is held, the screen after the empty snapshot is
    the dashboard with that reading and no rows. *)
Theorem empty_snapshot_dashboard g events q r :
  subscription (run g events) = Some q →
  error (view (run g events)) = None →
  latestReading (view (run g events)) = Some r →
  render (view (step (run g events) (EvSnapshot [])))
  = DashboardScreen (shownUser (view (run g events))) (Some (viewReading r)) [].
Proof.
  intros Hq Herr Hr. pose proof (run_in_sync g events) as Hsync.
  rewrite (step_snapshot_in_sync _ _ _ Hq Hsync). simpl.
  unfold deliverSnapshot, onSnapshotNext, render, dashboard, shownUser. simpl.
  by rewrite Herr, Hr.
Qed.

End App.

(** * The component on the sample environment *)

Section Samples.
#[local] Existing Instance demo.

Example demo_live :
  calls (run demoGlobals [EvAuthState (Some demoUser)])
  = [call_onAuthStateChanged "auth"; call_onSnapshot (sensorQuery "firestore")].
Proof. reflexivity. Qed.

Example demo_materialize :
  materialize (demoDoc 0)
  = Returned
      {[ "id" := JStr "r0";
         "temperature" := JNum 22.5%float;
         "humidity" := JNum 40%float;
         "timestamp" := JDate {| getTime := 1700000000000 |} ]}.
Proof. reflexivity. Qed.

(** A truthy [timestamp] that is not a [Timestamp] makes the callback
    throw, and the delivery then leaves the state as it was. *)
Example demo_ill_typed_timestamp :
  let bad := {| doc_id := "r9";
                doc_data := {[ "timestamp" := JStr "2024-01-01" ]} |} in
  onSnapshotNext [demoDoc 0; bad] initialState
  = Thrown "data.timestamp.toDate is not a function"
  ∧ deliverSnapshot [demoDoc 0; bad] initialState = initialState.
Proof. split; reflexivity. Qed.

(** A data field named [id] wins over the document id. *)
Example demo_id_overridden :
  let doc := {| doc_id := "r9"; doc_data := {[ "id" := JStr "mine" ]} |} in
  (λ r, r !! "id") <$> match materialize doc with
                       | Returned r => Some r
                       | Thrown _ => None
                       end
  = Some (Some (JStr "mine")).
Proof. reflexivity. Qed.

(** An empty-object configuration text takes the same branch as a missing
    one. *)
Example demo_empty_config :
  view (mount {| __app_id := None; __firebase_config := Some "{}";
                 __initial_auth_token := None |})
  = view (mount missingGlobals).
Proof. reflexivity. Qed.

(** ** Instances of the theorems *)

Lemma snapshot_replaces_window_witness :
  let c := run demoGlobals [EvAuthState (Some demoUser)] in
  let snapshot := [demoDoc 1; demoDoc 0] in
  let r1 : jsobject :=
    {[ "id" := JStr "r1";
       "temperature" := JNum 22.5%float;
       "humidity" := JNum 40%float;
       "timestamp" := JDate {| getTime := 1700000001000 |} ]} in
  let r0 : jsobject :=
    {[ "id" := JStr "r0";
       "temperature" := JNum 22.5%float;
       "humidity" := JNum 40%float;
       "timestamp" := JDate {| getTime := 1700000000000 |} ]} in
  subscription c = Some (sensorQuery "firestore")
  ∧ snapshot ≠ []
  ∧ forallb timestamp_ok snapshot = true
  ∧ sensorReadings (view (step c (EvSnapshot snapshot))) = [r1; r0]
  ∧ latestReading (view (step c (EvSnapshot snapshot))) = Some r1
  ∧ ∃ readings,
      Forall2 (λ d r, materialize d = Returned r) snapshot readings
      ∧ Forall2 isReadingOf snapshot readings
      ∧ sensorReadings (view (step c (EvSnapshot snapshot))) = readings
      ∧ latestReading (view (step c (EvSnapshot snapshot))) = readings !! 0%nat.
Proof.
  intros c snapshot r1 r0.
  assert (subscription c = Some (sensorQuery "firestore")) as Hq
    by reflexivity.
  assert (snapshot ≠ []) as Hne by discriminate.
  assert (forallb timestamp_ok snapshot = true) as Hok
    by reflexivity.
  split; [exact Hq|]. split; [exact Hne|]. split; [exact Hok|].
  split; [reflexivity|]. split; [reflexivity|].
  destruct (snapshot_replaces_window c _ snapshot Hq Hne Hok)
    as (rs & st' & _ & HF & _ & Hw & _ & Hl & _ & HR).
  exists rs. split; [exact HF|]. split; [exact HR|].
  split; [exact Hw|exact Hl].
Defined.

Lemma empty_snapshot_keeps_latest_witness :
  let c := run demoGlobals [EvAuthState (Some demoUser); EvSnapshot [demoDoc 0]] in
  let r : jsobject :=
    {[ "id" := JStr "r0";
       "temperature" := JNum 22.5%float;
       "humidity" := JNum 40%float;
       "timestamp" := JDate {| getTime := 1700000000000 |} ]} in
  subscription c = Some (sensorQuery "firestore")
  ∧ latestReading (view c) = Some r
  ∧ latestReading (view (step c (EvSnapshot []))) = Some r
  ∧ sensorReadings (view (step c (EvSnapshot []))) = []
  ∧ isLoading (view (step c (EvSnapshot []))) = false.
Proof.
  intros c r.
  assert (subscription c = Some (sensorQuery "firestore")) as Hq
    by reflexivity.
  assert (latestReading (view c) = Some r) as Hr by reflexivity.
  split; [exact Hq|]. split; [exact Hr|].
  destruct (empty_snapshot_keeps_latest c _ r Hq Hr) as (H1 & H2 & H3 & _).
  split; [exact H1|]. split; [exact H2|exact H3].
Defined.

Lemma latest_is_window_head_witness :
  let events := [EvAuthState (Some demoUser); EvSnapshot [demoDoc 2];
                 EvSnapshot [demoDoc 1; demoDoc 0];
                 EvSnapshotError "unavailable"] in
  let r1 : jsobject :=
    {[ "id" := JStr "r1";
       "temperature" := JNum 22.5%float;
       "humidity" := JNum 40%float;
       "timestamp" := JDate {| getTime := 1700000001000 |} ]} in
  length (sensorReadings (view (run demoGlobals events))) = 2%nat
  ∧ sensorReadings (view (run demoGlobals events)) !! 0%nat = Some r1
  ∧ latestReading (view (run demoGlobals events)) = Some r1.
Proof.
  intros events r1.
  assert (sensorReadings (view (run demoGlobals events)) !! 0%nat = Some r1)
    as Hhead by reflexivity.
  split; [reflexivity|]. split; [exact Hhead|].
  exact (proj1 (proj2 (latest_is_window_head demoGlobals events)) r1 Hhead).
Defined.

Lemma activation_opens_one_subscription_witness :
  initAttempt demoGlobals = Returned (Some ("firestore", "auth"))
  ∧ truthy_string (uid demoUser) = true
  ∧ calls (run demoGlobals [EvAuthState (Some demoUser)])
    = [call_onAuthStateChanged "auth"; call_onSnapshot (sensorQuery "firestore")].
Proof.
  assert (initAttempt demoGlobals = Returned (Some ("firestore", "auth")))
    as Hinit by reflexivity.
  assert (truthy_string (uid demoUser) = true) as Hu
    by reflexivity.
  split; [exact Hinit|]. split; [exact Hu|].
  exact (proj1 (activation_opens_one_subscription
                  demoGlobals "firestore" "auth" demoUser Hinit Hu)).
Defined.


Lemma missing_configuration_is_terminal_witness :
  let events := [EvAuthState (Some demoUser); EvSnapshot [demoDoc 0];
                 EvSnapshotError "unavailable"; EvUnmount] in
  __firebase_config missingGlobals = None
  ∧ isLoading (view (run missingGlobals events)) = false
  ∧ error (view (run missingGlobals events))
    = Some "Firebase configuration not found. Please ensure __firebase_config is set."
  ∧ sensorReadings (view (run missingGlobals events)) = []
  ∧ calls (run missingGlobals events) = [].
Proof.
  intros events.
  assert (__firebase_config missingGlobals = None) as Hcfg by reflexivity.
  split; [exact Hcfg|].
  destruct (missing_configuration_is_terminal missingGlobals events
              (or_introl Hcfg)) as (Hv & _ & _ & Hc).
  rewrite Hv. simpl. split; [reflexivity|]. split; [reflexivity|].
  split; [reflexivity|exact Hc].
Defined.

Lemma ten_newest_retained_witness :
  let c := run demoGlobals [EvAuthState (Some demoUser)] in
  let q := sensorQuery "firestore" in
  let window :=
    sensorReadings (view (step c (EvSnapshot (resultSet q demoSnapshot11)))) in
  subscription c = Some q
  ∧ forallb timestamp_ok demoSnapshot11 = true
  ∧ descending demoSnapshot11 = true
  ∧ length demoSnapshot11 = 11%nat
  ∧ length window = 10%nat
  ∧ Forall2 isReadingOf (take 10 demoSnapshot11) window
  ∧ (λ r : jsobject, r !! "id") <$> window
    = (λ n, Some (JStr ("r" +:+ pretty n)))
        <$> [10; 9; 8; 7; 6; 5; 4; 3; 2; 1]%Z.
Proof.
  intros c q window.
  assert (subscription c = Some q) as Hq by reflexivity.
  assert (forallb timestamp_ok demoSnapshot11 = true) as Hok by reflexivity.
  assert (descending demoSnapshot11 = true) as Hd by reflexivity.
  assert (length demoSnapshot11 = 11%nat) as Hlen by reflexivity.
  split; [exact Hq|]. split; [exact Hok|]. split; [exact Hd|].
  split; [exact Hlen|].
  destruct (ten_newest_retained demoGlobals _ q demoSnapshot11 Hq Hok Hd Hlen)
    as (_ & HF & Hten & _).
  split; [exact Hten|]. split; [exact HF|]. reflexivity.
Defined.

Lemma snapshot_keeps_error_witness :
  let events := [EvAuthState (Some demoUser); EvSnapshotError "unavailable"] in
  error (view (step (run demoGlobals events) (EvSnapshot [demoDoc 0])))
  = Some "Failed to fetch sensor data: unavailable".
Proof.
  intros events.
  rewrite (proj1 (proj1 (snapshot_keeps_error demoGlobals events) [demoDoc 0])).
  reflexivity.
Defined.

(** ** Where the specification and the code part *)

(** After a processed snapshot and a subscription error the component is
    not loading, holds the snapshot's data, and renders the error panel:
    the specification's rule would render the dashboard. *)
Lemma render_counterexample :
  let events := [EvAuthState (Some demoUser); EvSnapshot [demoDoc 0];
                 EvSnapshotError "unavailable"] in
  loadedDuring (mount demoGlobals) events = true
  ∧ isLoading (view (run demoGlobals events)) = false
  ∧ length (sensorReadings (view (run demoGlobals events))) = 1%nat
  ∧ render (view (run demoGlobals events))
    = ErrorScreen "Failed to fetch sensor data: unavailable" (Some "user-1")
  ∧ render (view (run demoGlobals events))
    ≠ specRender (loadedDuring (mount demoGlobals) events)
        (view (run demoGlobals events))
  ∧ ¬ render_follows_spec.
Proof.
  intros events.
  assert (render (view (run demoGlobals events))
          ≠ specRender (loadedDuring (mount demoGlobals) events)
              (view (run demoGlobals events))) as Hne.
  { assert (render (view (run demoGlobals events))
            = ErrorScreen "Failed to fetch sensor data: unavailable"
                (Some "user-1")) as -> by reflexivity.
    assert (isDashboard
              (specRender (loadedDuring (mount demoGlobals) events)
                 (view (run demoGlobals events))) = true) as Hd
      by reflexivity.
    intros Heq. rewrite <- Heq in Hd. discriminate Hd. }
  split; [reflexivity|]. split; [reflexivity|].
  split; [reflexivity|]. split; [reflexivity|].
  split; [exact Hne|].
  intros Hspec. exact (Hne (Hspec demoGlobals events)).
Qed.

(** The bound is the query's alone: handed eleven records directly, which
    a listener opened with [limit(10)] does not receive, the callback keeps
    eleven. *)
Example eleven_handed_eleven_kept :
  let c := run demoGlobals [EvAuthState (Some demoUser)] in
  length (sensorReadings (view (step c (EvSnapshot demoSnapshot11))))
  = 11%nat.
Proof. reflexivity. Qed.

(** ** Instances of the further properties *)

Lemma materialize_fields_witness :
  let r : jsobject :=
    {[ "id" := JStr "r0";
       "temperature" := JNum 22.5%float;
       "humidity" := JNum 40%float;
       "timestamp" := JDate {| getTime := 1700000000000 |} ]} in
  materialize (demoDoc 0) = Returned r
  ∧ r !! "temperature" = doc_data (demoDoc 0) !! "temperature"
  ∧ r !! "timestamp" = Some (JDate {| getTime := 1700000000000 |}).
Proof.
  intros r.
  assert (materialize (demoDoc 0) = Returned r) as Hm by reflexivity.
  split; [exact Hm|].
  destruct (materialize_fields (demoDoc 0) r Hm) as [Hk Hts].
  split; [apply Hk; discriminate|exact Hts].
Defined.

Lemma materialize_id_field_witness :
  let doc := {| doc_id := "r9"; doc_data := {[ "id" := JStr "mine" ]} |} in
  let r : jsobject := {[ "id" := JStr "mine"; "timestamp" := JNull ]} in
  materialize doc = Returned r ∧ r !! "id" = Some (JStr "mine").
Proof.
  intros doc r.
  assert (materialize doc = Returned r) as Hm by reflexivity.
  split; [exact Hm|]. exact (materialize_id_field doc r Hm).
Defined.

Lemma ill_typed_snapshot_is_dropped_witness :
  let bad := {| doc_id := "r9";
                doc_data := {[ "timestamp" := JStr "2024-01-01" ]} |} in
  let events := [EvAuthState (Some demoUser); EvSnapshot [demoDoc 1]] in
  existsb throwsOn [demoDoc 0; bad] = true
  ∧ step (run demoGlobals events) (EvSnapshot [demoDoc 0; bad])
    = run demoGlobals events.
Proof.
  intros bad events.
  assert (existsb throwsOn [demoDoc 0; bad] = true) as Hex by reflexivity.
  split; [exact Hex|].
  exact (ill_typed_snapshot_is_dropped demoGlobals events _ Hex).
Defined.

Lemma initialization_failure_is_terminal_witness :
  let g := {| __app_id := None; __firebase_config := Some "not json";
              __initial_auth_token := None |} in
  let events := [EvAuthState (Some demoUser); EvSnapshot [demoDoc 0]] in
  initAttempt g = Thrown "Unexpected token in JSON"
  ∧ error (view (run g events))
    = Some "Failed to initialize Firebase: Unexpected token in JSON"
  ∧ calls (run g events) = [].
Proof.
  intros g events.
  assert (initAttempt g = Thrown "Unexpected token in JSON") as Hinit
    by reflexivity.
  split; [exact Hinit|].
  destruct (initialization_failure_is_terminal g _ events Hinit)
    as (Hv & _ & _ & Hc).
  rewrite Hv. split; [reflexivity|exact Hc].
Defined.

Lemma loading_until_identity_witness :
  let events := [EvAuthState None; EvSnapshot [demoDoc 0]; EvAuthState None] in
  initAttempt demoGlobals = Returned (Some ("firestore", "auth"))
  ∧ forallb quiet events = true
  ∧ render (view (run demoGlobals events)) = LoadingScreen.
Proof.
  intros events.
  assert (initAttempt demoGlobals = Returned (Some ("firestore", "auth")))
    as Hinit by reflexivity.
  assert (forallb quiet events = true) as Hq by reflexivity.
  split; [exact Hinit|]. split; [exact Hq|].
  destruct (loading_until_identity demoGlobals _ _ events Hinit Hq)
    as (_ & _ & _ & _ & Hr).
  exact Hr.
Defined.

Lemma loading_never_returns_witness :
  let events := [EvAuthState (Some demoUser)] in
  let more := [EvAuthState (Some {| uid := "user-2" |}); EvAuthState None] in
  isLoading (view (run demoGlobals events)) = false
  ∧ isLoading (view (run demoGlobals (events ++ more))) = false.
Proof.
  intros events more.
  assert (isLoading (view (run demoGlobals events)) = false) as Hl
    by reflexivity.
  split; [exact Hl|].
  exact (loading_never_returns demoGlobals events more Hl).
Defined.

Lemma repeated_identity_is_ignored_witness :
  let events := [EvAuthState (Some demoUser); EvSnapshot [demoDoc 0]] in
  userId (view (run demoGlobals events)) = Some (uid demoUser)
  ∧ calls (step (run demoGlobals events) (EvAuthState (Some demoUser)))
    = calls (run demoGlobals events).
Proof.
  intros events.
  assert (authListener (run demoGlobals events)
          = Some {| firebaseAuth := "auth"; initialAuthToken := None |})
    as Hcl by reflexivity.
  assert (userId (view (run demoGlobals events)) = Some (uid demoUser))
    as Hu by reflexivity.
  split; [exact Hu|].
  destruct (repeated_identity_is_ignored demoGlobals events _ demoUser Hcl Hu)
    as (_ & Hc & _).
  exact Hc.
Defined.

Lemma identity_change_resubscribes_witness :
  let events := [EvAuthState (Some demoUser); EvSnapshotError "unavailable"] in
  let u := {| uid := "user-2" |} in
  userId (view (run demoGlobals events)) ≠ Some (uid u)
  ∧ calls (step (run demoGlobals events) (EvAuthState (Some u)))
    = [call_onAuthStateChanged "auth";
       call_onSnapshot (sensorQuery "firestore");
       call_unsubscribe (sensorQuery "firestore");
       call_onSnapshot (sensorQuery "firestore")]
  ∧ error (view (step (run demoGlobals events) (EvAuthState (Some u)))) = None.
Proof.
  intros events u.
  assert (initAttempt demoGlobals = Returned (Some ("firestore", "auth")))
    as Hinit by reflexivity.
  assert (authListener (run demoGlobals events)
          = Some {| firebaseAuth := "auth"; initialAuthToken := None |})
    as Hcl by reflexivity.
  assert (userId (view (run demoGlobals events)) ≠ Some (uid u)) as Hne.
  { assert (userId (view (run demoGlobals events)) = Some "user-1") as ->
      by reflexivity.
    discriminate. }
  assert (truthy_string (uid u) = true) as Hu by reflexivity.
  split; [exact Hne|].
  destruct (identity_change_resubscribes
              demoGlobals _ _ events _ u Hinit Hcl Hne Hu) as (Hc & _ & Hv).
  split; [rewrite Hc; reflexivity|rewrite Hv; reflexivity].
Defined.

Lemma sign_in_rejection_is_shown_witness :
  let events := [EvAuthState None] in
  render (view (step (run demoGlobals events) (EvSignInRejected "network")))
  = ErrorScreen "Authentication failed: network" None.
Proof.
  intros events.
  assert (authListener (run demoGlobals events)
          = Some {| firebaseAuth := "auth"; initialAuthToken := None |})
    as Hcl by reflexivity.
  destruct (sign_in_rejection_is_shown demoGlobals events _ "network" Hcl)
    as (_ & Hr & _).
  rewrite Hr. reflexivity.
Defined.

Lemma signed_out_starts_sign_in_witness :
  let g := {| __app_id := None; __firebase_config := Some demoConfigText;
              __initial_auth_token := Some "token-1" |} in
  calls (step (run g []) (EvAuthState None))
  = [call_onAuthStateChanged "auth";
     call_signInWithCustomToken "auth" "token-1"]
  ∧ calls (step (run demoGlobals []) (EvAuthState None))
    = [call_onAuthStateChanged "auth"; call_signInAnonymously "auth"].
Proof.
  intros g.
  assert (initAttempt g = Returned (Some ("firestore", "auth"))) as Hinit
    by reflexivity.
  assert (authListener (run g [])
          = Some {| firebaseAuth := "auth";
                    initialAuthToken := Some "token-1" |})
    as Hcl by reflexivity.
  assert (initAttempt demoGlobals = Returned (Some ("firestore", "auth")))
    as Hinit' by reflexivity.
  assert (authListener (run demoGlobals [])
          = Some {| firebaseAuth := "auth"; initialAuthToken := None |})
    as Hcl' by reflexivity.
  destruct (signed_out_starts_sign_in g _ _ [] _ Hinit Hcl) as (_ & _ & Hc).
  destruct (signed_out_starts_sign_in demoGlobals _ _ [] _ Hinit' Hcl')
    as (_ & _ & Hc').
  split; [rewrite Hc; reflexivity|rewrite Hc'; reflexivity].
Defined.

Lemma error_panel_survives_snapshots_witness :
  let events := [EvAuthState (Some demoUser); EvSnapshotError "unavailable"] in
  let more := [EvSnapshot [demoDoc 1; demoDoc 0]; EvSnapshot []] in
  render (view (run demoGlobals (events ++ more)))
  = ErrorScreen "Failed to fetch sensor data: unavailable" (Some "user-1").
Proof.
  intros events more.
  assert (isLoading (view (run demoGlobals events)) = false) as Hl
    by reflexivity.
  assert (error (view (run demoGlobals events))
          = Some "Failed to fetch sensor data: unavailable") as Herr
    by reflexivity.
  assert (forallb isSnapshot more = true) as Hs by reflexivity.
  rewrite (error_panel_survives_snapshots demoGlobals events _ more Hl Herr Hs).
  reflexivity.
Defined.

Lemma window_bounded_witness :
  let events := [EvAuthState (Some demoUser); EvSnapshot [demoDoc 1; demoDoc 0];
                 EvSnapshot [demoDoc 2; demoDoc 1; demoDoc 0]] in
  snapshotsWithin 10 events = true
  ∧ (length (sensorReadings (view (run demoGlobals events))) ≤ 10)%nat.
Proof.
  intros events.
  assert (snapshotsWithin 10 events = true) as Hn by reflexivity.
  split; [exact Hn|]. exact (window_bounded demoGlobals events 10 Hn).
Defined.

Lemma shown_reading_witness :
  let doc := {| doc_id := "r9";
                doc_data := {[ "temperature" := JNum 19.5%float ]} |} in
  let r : jsobject :=
    {[ "id" := JStr "r9"; "temperature" := JNum 19.5%float;
       "timestamp" := JNull ]} in
  materialize doc = Returned r
  ∧ viewReading r
    = {| shown_temperature := Some (JNum 19.5%float);
         shown_humidity := None;
         shown_timestamp := None |}.
Proof.
  intros doc r.
  assert (materialize doc = Returned r) as Hm by reflexivity.
  split; [exact Hm|]. rewrite (shown_reading doc r Hm). reflexivity.
Defined.

Lemma first_snapshot_shows_dashboard_witness :
  let snapshot := [demoDoc 1; demoDoc 0] in
  existsb throwsOn snapshot = false
  ∧ render (view (run demoGlobals [EvAuthState (Some demoUser)]))
    = DashboardScreen (Some "user-1") None [].
Proof.
  intros snapshot.
  assert (initAttempt demoGlobals = Returned (Some ("firestore", "auth")))
    as Hinit by reflexivity.
  assert (truthy_string (uid demoUser) = true) as Hu by reflexivity.
  assert (existsb throwsOn snapshot = false) as Hok by reflexivity.
  split; [exact Hok|].
  exact (proj1 (first_snapshot_shows_dashboard
                  demoGlobals _ _ demoUser snapshot Hinit Hu Hok)).
Defined.

Lemma empty_snapshot_dashboard_witness :
  let events := [EvAuthState (Some demoUser); EvSnapshot [demoDoc 0]] in
  render (view (step (run demoGlobals events) (EvSnapshot [])))
  = DashboardScreen (Some "user-1")
      (Some {| shown_temperature := Some (JNum 22.5%float);
               shown_humidity := Some (JNum 40%float);
               shown_timestamp :=
                 Some (JDate {| getTime := 1700000000000 |}) |})
      [].
Proof.
  intros events.
  assert (subscription (run demoGlobals events)
          = Some (sensorQuery "firestore")) as Hq by reflexivity.
  assert (error (view (run demoGlobals events)) = None) as Herr
    by reflexivity.
  assert (latestReading (view (run demoGlobals events))
          = Some ({[ "id" := JStr "r0";
                     "temperature" := JNum 22.5%float;
                     "humidity" := JNum 40%float;
                     "timestamp" := JDate {| getTime := 1700000000000 |} ]}
                  : jsobject)) as Hr by reflexivity.
  rewrite (empty_snapshot_dashboard demoGlobals events _ _ Hq Herr Hr).
  reflexivity.
Defined.

End Samples.
